(** * vtsls service shims: the filesystem router and the shim lifecycle

    A shallow embedding of
    - [packages/service/src/shims/fs.ts]  (the filesystem shim: provider
      registry, [readFile] / [writeFile] / [stat], [mkdirp]),
    - [packages/service/src/shims/fileSystemError.ts] (the error class), and
    - [packages/service/src/shims/index.ts] ([initializeShimServices] and
      the bundle's [dispose]),
    followed by the properties of these functions. *)

From Stdlib Require Import ZArith Ascii String List Lia.
From stdpp Require Import base option list strings gmap.

Local Open Scope Z_scope.

(** ** JavaScript string operations used by the shims *)

Module JsString.

(** [s.split(sep)] for a one-character separator.  The result is never
    empty: [''.split(' ')] is [['']]. *)
Fixpoint split (sep : ascii) (s : string) : list string :=
  match s with
  | EmptyString => [EmptyString]
  | String c rest =>
      if Ascii.eqb c sep then EmptyString :: split sep rest
      else match split sep rest with
           | tok :: toks => String c tok :: toks
           | [] => [String c EmptyString]
           end
  end.

(** [s.split(' ')[0]]; indexing an array out of range is [undefined],
    here [None]. *)
Definition split_space_0 (s : string) : option string :=
  head (split " "%char s).

(** The part of [s] in front of its last ["/"], when it has one: what is
    left of [s] once the match of [/\/[^/]*$/] is cut off. *)
Fixpoint before_last_slash (s : string) : option string :=
  match s with
  | EmptyString => None
  | String c rest =>
      match before_last_slash rest with
      | Some r => Some (String c r)
      | None => if Ascii.eqb c "/"%char then Some EmptyString else None
      end
  end.

(** [s.replace(/\/[^/]*$/, '')]: without a match the string is returned
    as it is. *)
Definition replace_last_segment (s : string) : string :=
  match before_last_slash s with
  | Some r => r
  | None => s
  end.

(** [s.startsWith(p)] *)
Definition startsWith (s p : string) : bool := String.prefix p s.

(** [s.endsWith(p)] *)
Definition endsWith (s p : string) : bool :=
  let n := String.length s in
  let k := String.length p in
  (k <=? n)%nat && String.eqb (String.substring (n - k) k s) p.

(** The first character of a string, [s[0]]. *)
Definition char0 (s : string) : option ascii :=
  match s with
  | EmptyString => None
  | String c _ => Some c
  end.

End JsString.

(** ** Error values

    Whatever is thrown is looked at by the shims through [err?.code] and
    [err?.name] only; a property that is absent (or a thrown [null]) reads as
    [None].  [err_class] is the class the value was built by. *)

Inductive ErrorClass := ClassError | ClassFileSystemError | ClassForeign.

Record JsError := mkJsError {
  err_class : ErrorClass;
  err_name : option string;
  err_message : string;
  err_code : option string
}.

(** [new Error(message)]: the name is inherited from [Error.prototype]. *)
Definition new_Error (message : string) : JsError :=
  {| err_class := ClassError; err_name := Some "Error";
     err_message := message; err_code := None |}.

#[global] Instance ErrorClass_eq_dec : EqDecision ErrorClass.
Proof. solve_decision. Defined.

#[global] Instance JsError_eq_dec : EqDecision JsError.
Proof. solve_decision. Defined.

(** ** Resource identifiers (the part of [vscode-uri] the shims rely on) *)

Record URI := mkURI {
  scheme : string;
  authority : string;
  path : string;
  query : string;
  fragment : string
}.

#[global] Instance URI_eq_dec : EqDecision URI.
Proof. solve_decision. Defined.

Module Uri.

(** [_referenceResolution(scheme, path)]: for the schemes [https], [http]
    and [file] an empty path becomes ["/"] and a path that does not start
    with a slash gets one. *)
Definition referenceResolution (sch p : string) : string :=
  if String.eqb sch "https" || String.eqb sch "http" || String.eqb sch "file" then
    match JsString.char0 p with
    | None => "/"
    | Some c => if Ascii.eqb c "/"%char then p else "/" +:+ p
    end
  else p.

(** [_validateUri(ret)] on the path: a non-empty path of a URI with an
    authority starts with a slash, a path of one without authority does
    not start with two.  The thrown value is a plain [Error]. *)
Definition dquote : string := String (Ascii.ascii_of_nat 34) EmptyString.

Definition validatePath (auth p : string) : option JsError :=
  if String.eqb p EmptyString then None
  else if negb (String.eqb auth EmptyString) then
    if JsString.startsWith p "/" then None
    else Some (new_Error ("[UriError]: If a URI contains an authority component, then the path component must either be empty or begin with a slash (" +:+ dquote +:+ "/" +:+ dquote +:+ ") character"))
  else
    if JsString.startsWith p "//"
    then Some (new_Error ("[UriError]: If a URI does not contain an authority component, then the path cannot begin with two slash characters (" +:+ dquote +:+ "//" +:+ dquote +:+ ")"))
    else None.

(** [URI.from({...u, path: p})]: the components of [u] with the path
    replaced; the constructor resolves and validates the path.  The scheme
    of [u] is the scheme of a URI value already, so it is kept. *)
Definition with_path (u : URI) (p : string) : JsError + URI :=
  let p' := referenceResolution (scheme u) p in
  match validatePath (authority u) p' with
  | Some e => inl e
  | None => inr {| scheme := scheme u; authority := authority u; path := p';
                   query := query u; fragment := fragment u |}
  end.

End Uri.

(** ** The error taxonomy ([fileSystemError.ts]) *)

Module FileSystemProviderErrorCode.
Definition FileExists : string := "EntryExists".
Definition FileNotFound : string := "EntryNotFound".
Definition FileNotADirectory : string := "EntryNotADirectory".
Definition FileIsADirectory : string := "EntryIsADirectory".
Definition FileExceedsStorageQuota : string := "EntryExceedsStorageQuota".
Definition FileTooLarge : string := "EntryTooLarge".
Definition FileWriteLocked : string := "EntryWriteLocked".
Definition NoPermissions : string := "NoPermissions".
Definition Unavailable : string := "Unavailable".
Definition Unknown : string := "Unknown".
End FileSystemProviderErrorCode.

(** The argument [messageOrUri?: string | URI] of the constructors. *)
Inductive MessageOrUri :=
| NoMessage
| Message (s : string)
| OfUri (u : URI).

Module FileSystemError.

(** The static methods of the class; each passes itself as [terminator]. *)
Inductive Terminator :=
| FileExists | FileNotFound | FileNotADirectory
| FileIsADirectory | NoPermissions | Unavailable.

(** [terminator.name]: the name of a static method is its property name. *)
Definition function_name (t : Terminator) : string :=
  match t with
  | FileExists => "FileExists"
  | FileNotFound => "FileNotFound"
  | FileNotADirectory => "FileNotADirectory"
  | FileIsADirectory => "FileIsADirectory"
  | NoPermissions => "NoPermissions"
  | Unavailable => "Unavailable"
  end.

(** The entry of [FileSystemProviderErrorCode] a static method passes as
    [code]. *)
Definition provider_code (t : Terminator) : string :=
  match t with
  | FileExists => FileSystemProviderErrorCode.FileExists
  | FileNotFound => FileSystemProviderErrorCode.FileNotFound
  | FileNotADirectory => FileSystemProviderErrorCode.FileNotADirectory
  | FileIsADirectory => FileSystemProviderErrorCode.FileIsADirectory
  | NoPermissions => FileSystemProviderErrorCode.NoPermissions
  | Unavailable => FileSystemProviderErrorCode.Unavailable
  end.

Section WithToString.
(** [uri.toString(skipEncoding)] of [vscode-uri]. *)
Variable toString : bool -> URI -> string.

(** [markAsFileSystemProviderError(error, code)]: an empty [code] is
    falsy. *)
Definition markAsFileSystemProviderError (error : JsError) (code : string) : JsError :=
  {| err_class := err_class error;
     err_name := Some (if String.eqb code EmptyString then "FileSystemError"
                       else code +:+ " (FileSystemError)");
     err_message := err_message error;
     err_code := err_code error |}.

(** [new FileSystemError(uriOrMessage, code, terminator)]; [code]
    defaults to [FileSystemProviderErrorCode.Unknown]. *)
Definition constructor (uriOrMessage : MessageOrUri) (code : option string)
    (terminator : option Terminator) : JsError :=
  let code := default FileSystemProviderErrorCode.Unknown code in
  let this :=
    {| err_class := ClassFileSystemError;
       err_name := Some "Error";
       err_message := match uriOrMessage with
                      | NoMessage => EmptyString
                      | Message s => s
                      | OfUri u => toString true u
                      end;
       err_code := Some (match terminator with
                         | Some t => function_name t
                         | None => "Unknown"
                         end) |} in
  markAsFileSystemProviderError this code.

(** [FileSystemError.FileExists(messageOrUri)] and its five siblings. *)
Definition create (t : Terminator) (messageOrUri : MessageOrUri) : JsError :=
  constructor messageOrUri (Some (provider_code t)) (Some t).

End WithToString.

End FileSystemError.

(** The test both [catch] blocks of [mkdirp] make: the error is re-thrown when
    [err?.code !== code && ((err?.name ?? '') as string).split(' ')[0] !== code]. *)
Definition not_recognised (code : string) (err : JsError) : bool :=
  negb (bool_decide (err_code err = Some code))
  && negb (bool_decide (JsString.split_space_0 (default EmptyString (err_name err)) = Some code)).


(** ** The filesystem shim ([fs.ts]) *)

Module FileType.
Definition Unknown : Z := 0.
Definition File : Z := 1.
Definition Directory : Z := 2.
Definition SymbolicLink : Z := 64.
End FileType.

Record FileStat := mkFileStat {
  type : Z;
  mtime : Z;
  ctime : Z;
  size : Z;
  permissions : option Z
}.

(** [toType(entry, symbolicLink)], on what it reads of [entry]: [isFile()]
    and [isDirectory()]; [symbolicLink] is [Some dangling] when present.
    [type |= FileType.SymbolicLink] is a bitwise or. *)
Definition toType (isFile isDirectory : bool) (symbolicLink : option bool) : Z :=
  let type :=
    if default false symbolicLink then FileType.Unknown
    else if isFile then FileType.File
    else if isDirectory then FileType.Directory
    else FileType.Unknown in
  match symbolicLink with
  | Some _ => Z.lor type FileType.SymbolicLink
  | None => type
  end.

(** A registered backend is an object; [Provider] is its identity. *)
Definition Provider := nat.

Record RegisterFileSystemProviderOptions := mkOptions {
  opt_isCaseSensitive : option bool;
  (** [boolean | vscode.MarkdownString]: [inl] a boolean, [inr] the text of
      a markdown string (an object, hence truthy). *)
  opt_isReadonly : option (bool + string)
}.

(** The options object [{}]. *)
Definition empty_options : RegisterFileSystemProviderOptions :=
  {| opt_isCaseSensitive := None; opt_isReadonly := None |}.

(** The values of the map [_fsProvider]. *)
Record Registration := mkRegistration {
  impl : Provider;
  isReadonly : bool
}.

(** The service objects of a bundle that have a [dispose] method. *)
Inductive Service :=
| configurationService
| languageFeaturesService
| commandsService
| workspaceService
| windowService.

(** Objects with a [dispose()] method.  The handle [_addFileSystemProvider]
    returns is the closure [() => { _fsProvider.delete(scheme) }], given by
    the [scheme] it has captured; a subscription is an object of the
    extension, given by its identity. *)
Inductive IDisposable :=
| OfService (s : Service)
| Subscription (id : nat)
| FsProviderHandle (scheme : string).

(** [handle.dispose()] on the map [_fsProvider]. *)
Definition handle_dispose (scheme : string) (_fsProvider : gmap string Registration)
    : gmap string Registration :=
  delete scheme _fsProvider.

(** [!!options?.isReadonly] *)
Definition readonly_flag (options : option RegisterFileSystemProviderOptions) : bool :=
  match options with
  | Some o =>
      match opt_isReadonly o with
      | Some (inl b) => b
      | Some (inr _) => true
      | None => false
      end
  | None => false
  end.

(** [isWritableFileSystem(scheme)]; [None] is [undefined]. *)
Definition isWritableFileSystem (_fsProvider : gmap string Registration)
    (scheme : string) : option bool :=
  match _fsProvider !! scheme with
  | None => None
  | Some r => Some (negb (isReadonly r))
  end.

(** [_addFileSystemProvider(scheme, provider, options)]: the outcome (the
    thrown error or the returned handle) and the map afterwards. *)
Definition _addFileSystemProvider (scheme : string) (provider : Provider)
    (options : option RegisterFileSystemProviderOptions)
    (_fsProvider : gmap string Registration)
    : (JsError + IDisposable) * gmap string Registration :=
  match _fsProvider !! scheme with
  | Some _ =>
      (inl (new_Error ("A provider with scheme " +:+ scheme +:+ " is already registered")),
       _fsProvider)
  | None =>
      (inr (FsProviderHandle scheme),
       <[scheme := {| impl := provider; isReadonly := readonly_flag options |}]> _fsProvider)
  end.

(** [withProvider(scheme)]: throws when the map has no entry for the scheme,
    otherwise returns [_fsProvider.get(scheme)]. *)
Definition withProvider (_fsProvider : gmap string Registration) (scheme : string)
    : JsError + option Registration :=
  match _fsProvider !! scheme with
  | None => inl (new_Error ("Unsupported URI scheme " +:+ scheme))
  | Some _ => inr (_fsProvider !! scheme)
  end.

(** [fromResource(uri)], with the [extensionUri] the shim was created for. *)
Definition fromResource (extensionUri : option URI) (uri : URI) : string :=
  let generic := "/" +:+ scheme uri +:+ "/" +:+ authority uri +:+ path uri in
  match extensionUri with
  | Some ext =>
      if String.eqb (scheme uri) (scheme ext)
         && String.eqb (authority uri) (authority ext)
         && JsString.startsWith (path uri) (path ext +:+ "/typescript/lib.")
         && JsString.endsWith (path uri) ".d.ts"
      then path uri
      else generic
  | None => generic
  end.

(** [dirname] of [mkdirp]:
    [URI.from({...u, path: u.path.replace(/\/[^/]*$/, '')})]. *)
Definition dirname (u : URI) : JsError + URI :=
  Uri.with_path u (JsString.replace_last_segment (path u)).

(** The directory [i] levels above [directory]: [dirname] applied [i]
    times. *)
Fixpoint ancestor (i : nat) (directory : URI) : JsError + URI :=
  match i with
  | O => inr directory
  | S i' =>
      match dirname directory with
      | inr parent => ancestor i' parent
      | inl e => inl e
      end
  end.

(** *** Calls that leave the shim

    Every call of a backend method, of [fsPromises] or of a [dispose]
    method is recorded in order.  Those that are not the shim's own code are
    answered by the outside world, whose state they may change. *)

Inductive Call :=
| ProviderStat (p : Provider) (u : URI)
| ProviderCreateDirectory (p : Provider) (u : URI)
| ProviderReadFile (p : Provider) (u : URI)
| ProviderWriteFile (p : Provider) (u : URI) (content : list Byte.byte)
    (create overwrite : bool)
| FsReadFile (pat : string)
| FsMkdir (pat : string) (recursive : bool)
| FsWriteFile (pat : string) (content : list Byte.byte)
| Dispose (d : IDisposable).

(** What became of a computation: it returned, it threw, or the model ran
    out of fuel inside a loop (the loop was still running). *)
Inductive Outcome (A : Type) :=
| Returned (a : A)
| Thrown (e : JsError)
| OutOfFuel.
Arguments Returned {A} a.
Arguments Thrown {A} e.
Arguments OutOfFuel {A}.

Section Monad.

(** The state of everything outside the shims: the backends, the disk, the
    services and the extension's subscriptions. *)
Context {World : Type}.

Record Outside := mkOutside {
  provider_stat : Provider -> URI -> World -> (JsError + FileStat) * World;
  provider_createDirectory : Provider -> URI -> World -> (JsError + unit) * World;
  provider_readFile : Provider -> URI -> World -> (JsError + list Byte.byte) * World;
  provider_writeFile :
    Provider -> URI -> list Byte.byte -> bool -> bool -> World -> (JsError + unit) * World;
  fs_readFile : string -> World -> (JsError + list Byte.byte) * World;
  fs_mkdir : string -> bool -> World -> (JsError + unit) * World;
  fs_writeFile : string -> list Byte.byte -> World -> (JsError + unit) * World;
  (** [service.dispose()] *)
  service_dispose : Service -> World -> (JsError + unit) * World;
  (** [d.dispose()] of the subscription with this identity *)
  subscription_dispose : nat -> World -> (JsError + unit) * World;
  (** the array [context.subscriptions] *)
  context_subscriptions : World -> list IDisposable
}.

(** The map [_fsProvider] is the state of the filesystem shim. *)
Record State := mkState {
  world : World;
  calls : list Call;
  fsProvider : gmap string Registration
}.

Definition M (A : Type) : Type := State -> Outcome A * State.

Definition ret {A} (a : A) : M A := fun s => (Returned a, s).

Definition throw {A} (e : JsError) : M A := fun s => (Thrown e, s).

Definition out_of_fuel {A} : M A := fun s => (OutOfFuel, s).

Definition bind {A B} (m : M A) (k : A -> M B) : M B :=
  fun s =>
    match m s with
    | (Returned a, s') => k a s'
    | (Thrown e, s') => (Thrown e, s')
    | (OutOfFuel, s') => (OutOfFuel, s')
    end.

(** [try { body } catch (err) { handler }] *)
Definition try_catch {A} (body : M A) (handler : JsError -> M A) : M A :=
  fun s =>
    match body s with
    | (Thrown e, s') => handler e s'
    | r => r
    end.

(** A synchronous computation that throws or returns. *)
Definition lift {A} (r : JsError + A) : M A :=
  match r with
  | inl e => throw e
  | inr a => ret a
  end.

(** Reading the outside world and the map. *)
Definition gets {A} (f : State -> A) : M A := fun s => (Returned (f s), s).

(** A call: it is recorded, and the outside world answers it.  The answer
    is a change of the world only: a backend that, while it is awaited, calls
    back into the shim and registers or disposes a provider is outside this
    model, and so is a registration made by other code during the wait. *)
Definition call {A} (c : Call) (answer : World -> (JsError + A) * World) : M A :=
  fun s =>
    let (r, w) := answer (world s) in
    (match r with inl e => Thrown e | inr a => Returned a end,
     {| world := w; calls := calls s ++ [c]; fsProvider := fsProvider s |}).

(** The state after a call of [stat] that left the world as [w]. *)
Definition after_stat (s : State) (provider : Provider) (directory : URI) (w : World)
    : State :=
  {| world := w; calls := calls s ++ [ProviderStat provider directory];
     fsProvider := fsProvider s |}.

(** The state after a call of [createDirectory] that left the world as [w]. *)
Definition after_create (s : State) (provider : Provider) (entry : URI) (w : World)
    : State :=
  {| world := w; calls := calls s ++ [ProviderCreateDirectory provider entry];
     fsProvider := fsProvider s |}.

(** A synchronous method of the filesystem shim that changes [_fsProvider]. *)
Definition on_fsProvider {A}
    (f : gmap string Registration -> (JsError + A) * gmap string Registration) : M A :=
  fun s =>
    let (r, m) := f (fsProvider s) in
    (match r with inl e => Thrown e | inr a => Returned a end,
     {| world := world s; calls := calls s; fsProvider := m |}).

End Monad.

Arguments Outside World : clear implicits.
Arguments State World : clear implicits.
Arguments M World A : clear implicits.

Notation "'let*' x := m 'in' k" := (bind m (fun x => k))
  (at level 10, x name, m at level 100, k at level 200, only parsing).
Notation "m ;; k" := (bind m (fun _ => k))
  (at level 100, k at level 200, right associativity, only parsing).

Section Shims.

Context {World : Type}.
(** The backends, the disk and the services the shims talk to. *)
Variable outside : Outside World.
(** [uri.toString(skipEncoding)] and [uri.fsPath] of [vscode-uri]. *)
Variable toString : bool -> URI -> string.
Variable fsPath : URI -> string.
(** The argument of [createFileSystemShim]. *)
Variable extensionUri : option URI.

(** The message of the error [mkdirp] throws at an ancestor that is not a
    directory. *)
Definition not_a_directory_message (directory : URI) : string :=
  "Unable to create folder '"
  +:+ (if String.eqb (scheme directory) "file" then fsPath directory
       else toString true directory)
  +:+ "' that already exists but is not a directory".

(** One pass through the body of [while (pat != '/') { try ... catch ... }]:
    [None] is [break], [Some (toCreate, directory)] the variables the next
    pass starts from. *)
Definition walk_body (provider : Provider) (directory : URI) (toCreate : list URI)
    : M World (option (list URI * URI)) :=
  try_catch
    (let* stat := call (ProviderStat provider directory)
                    (provider_stat outside provider directory) in
     if Z.land (type stat) FileType.Directory =? 0
     then throw (FileSystemError.create toString FileSystemError.FileExists
                   (Message (not_a_directory_message directory)))
     else ret None)
    (fun err =>
       if not_recognised FileSystemProviderErrorCode.FileNotFound err
       then throw err
       else
         let* pushed := lift (Uri.with_path directory (path directory +:+ "/")) in
         let* directory' := lift (dirname directory) in
         ret (Some (toCreate ++ [pushed], directory'))).

(** The loop [while (pat != '/') ...] of [mkdirp]; it returns [toCreate]. *)
Fixpoint walk (fuel : nat) (provider : Provider) (pat : string) (directory : URI)
    (toCreate : list URI) : M World (list URI) :=
  if String.eqb pat "/" then ret toCreate
  else
    match fuel with
    | O => out_of_fuel
    | S fuel' =>
        let* next := walk_body provider directory toCreate in
        match next with
        | None => ret toCreate
        | Some (toCreate', directory') => walk fuel' provider pat directory' toCreate'
        end
    end.

(** The loop [for (let i = toCreate.length - 1; i >= 0; i--) ...] of
    [mkdirp], given the entries in the order the loop takes them, that is
    [rev toCreate]. *)
Fixpoint create_directories (provider : Provider) (entries : list URI) : M World unit :=
  match entries with
  | [] => ret tt
  | entry :: rest =>
      try_catch
        (call (ProviderCreateDirectory provider entry)
           (provider_createDirectory outside provider entry))
        (fun err =>
           if not_recognised FileSystemProviderErrorCode.FileExists err
           then throw err
           else ret tt) ;;
      create_directories provider rest
  end.

(** [mkdirp(provider, uri)] *)
Definition mkdirp (fuel : nat) (provider : Provider) (uri : URI) : M World unit :=
  let pat := path uri in
  let* directory := lift (dirname uri) in
  let* toCreate := walk fuel provider pat directory [] in
  create_directories provider (rev toCreate).

(** [readFile(uri)]; [.slice()] copies the bytes. *)
Definition readFile (uri : URI) : M World (list Byte.byte) :=
  let* _fsProvider := gets fsProvider in
  let* provider := lift (withProvider _fsProvider (scheme uri)) in
  match provider with
  | Some p =>
      call (ProviderReadFile (impl p) uri) (provider_readFile outside (impl p) uri)
  | None =>
      let pat := fromResource extensionUri uri in
      call (FsReadFile pat) (fs_readFile outside pat)
  end.

(** [writeFile(uri, content)] *)
Definition writeFile (fuel : nat) (uri : URI) (content : list Byte.byte) : M World unit :=
  let* _fsProvider := gets fsProvider in
  let* provider := lift (withProvider _fsProvider (scheme uri)) in
  let on_disk : M World unit :=
    let pat := fromResource extensionUri uri in
    let parent := JsString.replace_last_segment pat in
    call (FsMkdir parent true) (fs_mkdir outside parent true) ;;
    call (FsWriteFile pat content) (fs_writeFile outside pat content) in
  match provider with
  | Some p =>
      if negb (isReadonly p)
      then
        mkdirp fuel (impl p) uri ;;
        call (ProviderWriteFile (impl p) uri content true true)
          (provider_writeFile outside (impl p) uri content true true)
      else on_disk
  | None => on_disk
  end.

(** The ancestors of a walk that are all reported missing: starting at
    [directory], [k] calls of [stat] in a row throw an error that the
    [catch] block takes for [FileNotFound].  The result is the entries
    recorded for them (bottom-up), the next directory to visit, and the
    state after the [k] calls. *)
Fixpoint missing (k : nat) (provider : Provider) (directory : URI) (s : State World)
    : option (list URI * URI * State World) :=
  match k with
  | O => Some ([], directory, s)
  | S k' =>
      match call (ProviderStat provider directory)
              (provider_stat outside provider directory) s with
      | (Thrown err, s1) =>
          if not_recognised FileSystemProviderErrorCode.FileNotFound err then None
          else
            match Uri.with_path directory (path directory +:+ "/"), dirname directory with
            | inr pushed, inr directory' =>
                match missing k' provider directory' s1 with
                | Some (rest, top, s') => Some (pushed :: rest, top, s')
                | None => None
                end
            | _, _ => None
            end
      | _ => None
      end
  end.

(** ** The lifecycle of the shim services ([index.ts]) *)

(** [d.dispose()] *)
Definition dispose_call (d : IDisposable) : M World unit :=
  match d with
  | OfService sv => call (Dispose d) (service_dispose outside sv)
  | Subscription id => call (Dispose d) (subscription_dispose outside id)
  | FsProviderHandle scheme =>
      call (Dispose d) (fun w => (inr tt, w)) ;;
      on_fsProvider (fun m => (inr tt, handle_dispose scheme m))
  end.

(** [array.forEach((d) => { d.dispose() })] for an array that no [dispose]
    can reach, as [FsProviderDisposables], which only the closure holds. *)
Fixpoint forEach_dispose (array : list IDisposable) : M World unit :=
  match array with
  | [] => ret tt
  | d :: rest => dispose_call d ;; forEach_dispose rest
  end.

(** Modelled from the spec: [WorkspaceShimService.registerFileSystemProvider],
    whose class is not among the sources.  The spec gives the workspace
    service an instance of the filesystem router and the contract
    [registerProvider(scheme, backend, options) -> DisposalHandle], which
    fails if the scheme is already registered: the method hands its
    arguments to the router's [_addFileSystemProvider] and returns its
    handle. *)
Definition registerFileSystemProvider (scheme : string) (provider : Provider)
    (options : option RegisterFileSystemProviderOptions) : M World IDisposable :=
  on_fsProvider (_addFileSystemProvider scheme provider options).

(** What [initializeShimServices] returns, as far as disposal goes: the
    closure [dispose] with the array [FsProviderDisposables] it has
    captured. *)
Record Bundle := mkBundle {
  FsProviderDisposables : list IDisposable
}.

(** [initializeShimServices(...)], from the declaration of
    [FsProviderDisposables] on; [BROWSER_ENV] is the truth value of
    [process.env.BROWSER_ENV] and [fetchFileSystemProvider] the object
    created inside the branch.  The lines before, which construct the
    services and with the workspace service its router, are not embedded:
    the state the function is run from stands for the state they leave, in
    which the router, just created, has no registration. *)
Definition initializeShimServices (BROWSER_ENV : bool) (fetchFileSystemProvider : Provider)
    : M World Bundle :=
  let* FsProviderDisposables :=
    if BROWSER_ENV then
      let* http :=
        registerFileSystemProvider "http" fetchFileSystemProvider (Some empty_options) in
      let* https :=
        registerFileSystemProvider "https" fetchFileSystemProvider (Some empty_options) in
      ret [http; https]
    else ret [] in
  ret {| FsProviderDisposables := FsProviderDisposables |}.

(** The rounds of [context.subscriptions.forEach((d) => { d.dispose() })]
    from [index] on.  [forEach] fixes the number of rounds when it starts
    and reads the array anew in every round: an element is the one the array
    has at that index by then, and an index the array has no more is
    skipped. *)
Fixpoint forEach_subscription (remaining index : nat) : M World unit :=
  match remaining with
  | O => ret tt
  | S remaining' =>
      (let* array := gets (fun s => context_subscriptions outside (world s)) in
       match array !! index with
       | Some d => dispose_call d
       | None => ret tt
       end) ;;
      forEach_subscription remaining' (S index)
  end.

(** [context.subscriptions.forEach((d) => { d.dispose() })] *)
Definition dispose_subscriptions : M World unit :=
  let* array := gets (fun s => context_subscriptions outside (world s)) in
  forEach_subscription (length array) 0.

(** The closure [dispose] of a bundle. *)
Definition dispose (bundle : Bundle) : M World unit :=
  dispose_call (OfService configurationService) ;;
  dispose_call (OfService languageFeaturesService) ;;
  dispose_call (OfService commandsService) ;;
  dispose_call (OfService workspaceService) ;;
  dispose_call (OfService windowService) ;;
  dispose_subscriptions ;;
  forEach_dispose (FsProviderDisposables bundle).

(** The closure [dispose] of [shims/index.ts], which has no
    [FsProviderDisposables]. *)
Definition dispose_without_fs_providers : M World unit :=
  dispose_call (OfService configurationService) ;;
  dispose_call (OfService languageFeaturesService) ;;
  dispose_call (OfService commandsService) ;;
  dispose_call (OfService workspaceService) ;;
  dispose_call (OfService windowService) ;;
  dispose_subscriptions.

End Shims.

(** The order in which [dispose] takes the objects it disposes, given the
    contents of [context.subscriptions]. *)
Definition disposal_order (subscriptions : list IDisposable) (bundle : Bundle)
    : list IDisposable :=
  [OfService configurationService; OfService languageFeaturesService;
   OfService commandsService; OfService workspaceService; OfService windowService]
  ++ subscriptions ++ FsProviderDisposables bundle.

(** What [d.dispose()] answers in a given world. *)
Definition dispose_answer {World : Type} (outside : Outside World) (d : IDisposable)
    (w : World) : (JsError + unit) * World :=
  match d with
  | OfService sv => service_dispose outside sv w
  | Subscription id => subscription_dispose outside id w
  | FsProviderHandle _ => (inr tt, w)
  end.

(** The five services, in the order [dispose] takes them. *)
Definition services_in_order : list IDisposable :=
  [OfService configurationService; OfService languageFeaturesService;
   OfService commandsService; OfService workspaceService; OfService windowService].

(** The state after [d.dispose()] was called and left the world as [w]; the
    handle of a registration also removes the entry of its scheme. *)
Definition after_dispose {World : Type} (s : State World) (d : IDisposable) (w : World)
    : State World :=
  {| world := w;
     calls := calls s ++ [Dispose d];
     fsProvider := match d with
                   | FsProviderHandle scheme => handle_dispose scheme (fsProvider s)
                   | _ => fsProvider s
                   end |}.

(** Disposal in order that ends at the first throw, the run [dispose] is
    compared with: the objects of [order] are disposed one after the other;
    the first whose [dispose] throws ends the run with that error, the
    objects after it untouched; when none throws the run returns. *)
Fixpoint disposal_run {World : Type} (outside : Outside World)
    (order : list IDisposable) (s : State World) : Outcome unit * State World :=
  match order with
  | [] => (Returned tt, s)
  | d :: later =>
      match dispose_answer outside d (world s) with
      | (inl e, w) => (Thrown e, after_dispose s d w)
      | (inr _, w) => disposal_run outside later (after_dispose s d w)
      end
  end.

(** No [dispose] of a subscription changes the array [context.subscriptions]. *)
Definition subscriptions_stay {World : Type} (outside : Outside World)
    (subscriptions : list IDisposable) : Prop :=
  forall d w, In d subscriptions ->
    context_subscriptions outside (dispose_answer outside d w).2
    = context_subscriptions outside w.

(** ** A small outside world to run the shims in

    One in-memory backend, whatever its identity, that knows its entries by
    path; a disk that stores what is written; services of which one may
    fail to dispose. *)

Module Example.

Record World := mkWorld {
  entries : list (string * Z);
  disk : list (string * list Byte.byte);
  broken_service : option Service
}.

(** A stand-in for [uri.toString(true)], with its layout
    [scheme://authority/path?query#fragment] and without the lower-casing
    and the encoding of the library. *)
Definition toString (skipEncoding : bool) (u : URI) : string :=
  scheme u +:+ ":"
  +:+ (if negb (String.eqb (authority u) EmptyString) || String.eqb (scheme u) "file"
       then "//" else EmptyString)
  +:+ authority u +:+ path u
  +:+ (if String.eqb (query u) EmptyString then EmptyString else "?" +:+ query u)
  +:+ (if String.eqb (fragment u) EmptyString then EmptyString else "#" +:+ fragment u).

Definition fsPath (u : URI) : string := path u.

Fixpoint lookup_path {A} (p : string) (l : list (string * A)) : option A :=
  match l with
  | [] => None
  | (q, a) :: rest => if String.eqb p q then Some a else lookup_path p rest
  end.

Definition stat_of (t : Z) : FileStat :=
  {| type := t; mtime := 0; ctime := 0; size := 0; permissions := None |}.

Definition mem_stat (_ : Provider) (u : URI) (w : World) : (JsError + FileStat) * World :=
  match lookup_path (path u) (entries w) with
  | Some t => (inr (stat_of t), w)
  | None => (inl (FileSystemError.create toString FileSystemError.FileNotFound (OfUri u)), w)
  end.

(** The entry is stored without the trailing slash [mkdirp] appends. *)
Definition without_trailing_slash (p : string) : string :=
  if JsString.endsWith p "/" then String.substring 0 (String.length p - 1) p else p.

Definition mem_createDirectory (_ : Provider) (u : URI) (w : World)
    : (JsError + unit) * World :=
  let p := without_trailing_slash (path u) in
  match lookup_path p (entries w) with
  | Some _ => (inl (FileSystemError.create toString FileSystemError.FileExists (OfUri u)), w)
  | None =>
      (inr tt, {| entries := (p, FileType.Directory) :: entries w; disk := disk w;
                  broken_service := broken_service w |})
  end.

Definition mem_readFile (_ : Provider) (u : URI) (w : World)
    : (JsError + list Byte.byte) * World :=
  (inl (FileSystemError.create toString FileSystemError.FileNotFound (OfUri u)), w).

Definition mem_writeFile (_ : Provider) (u : URI) (content : list Byte.byte)
    (create overwrite : bool) (w : World) : (JsError + unit) * World :=
  (inr tt, {| entries := (path u, FileType.File) :: entries w; disk := disk w;
              broken_service := broken_service w |}).

Definition disk_readFile (pat : string) (w : World) : (JsError + list Byte.byte) * World :=
  match lookup_path pat (disk w) with
  | Some bytes => (inr bytes, w)
  | None =>
      (inl {| err_class := ClassError; err_name := Some "Error";
              err_message := "ENOENT: no such file or directory, open '" +:+ pat +:+ "'";
              err_code := Some "ENOENT" |}, w)
  end.

Definition disk_mkdir (pat : string) (recursive : bool) (w : World)
    : (JsError + unit) * World :=
  (inr tt, w).

Definition disk_writeFile (pat : string) (content : list Byte.byte) (w : World)
    : (JsError + unit) * World :=
  (inr tt, {| entries := entries w; disk := (pat, content) :: disk w;
              broken_service := broken_service w |}).

Definition Service_eqb (a b : Service) : bool :=
  match a, b with
  | configurationService, configurationService
  | languageFeaturesService, languageFeaturesService
  | commandsService, commandsService
  | workspaceService, workspaceService
  | windowService, windowService => true
  | _, _ => false
  end.

Definition a_service_dispose (sv : Service) (w : World) : (JsError + unit) * World :=
  match broken_service w with
  | Some b => if Service_eqb sv b then (inl (new_Error "dispose failed"), w) else (inr tt, w)
  | None => (inr tt, w)
  end.

Definition outside : Outside World :=
  {| provider_stat := mem_stat;
     provider_createDirectory := mem_createDirectory;
     provider_readFile := mem_readFile;
     provider_writeFile := mem_writeFile;
     fs_readFile := disk_readFile;
     fs_mkdir := disk_mkdir;
     fs_writeFile := disk_writeFile;
     service_dispose := a_service_dispose;
     subscription_dispose := fun _ w => (inr tt, w);
     context_subscriptions := fun _ => [Subscription 0; Subscription 1] |}.

(** A backend that has nothing at all, not even a root directory. *)
Definition nothing : World :=
  {| entries := []; disk := []; broken_service := None |}.

Definition uri (sch p : string) : URI :=
  {| scheme := sch; authority := EmptyString; path := p;
     query := EmptyString; fragment := EmptyString |}.

Definition start (w : World) (m : gmap string Registration) : State World :=
  {| world := w; calls := []; fsProvider := m |}.

Definition hello : list Byte.byte := [Byte.x68; Byte.x69].

(** A backend with the given entries. *)
Definition with_entries (l : list (string * Z)) : World :=
  {| entries := l; disk := []; broken_service := None |}.

(** The file about to be written, and its parent directory. *)
Definition target : URI := uri "file" "/a/b/c/file.txt".
Definition parent_of_target : URI := uri "file" "/a/b/c".

End Example.

(** ** The rest of the filesystem shim: the symlink-aware stat ([fs.ts]) *)

Module Node.

(** What the shim reads of an [fs.Stats]. *)
Record Stats := mkStats {
  isFile : bool;
  isDirectory : bool;
  isSymbolicLink : bool;
  birthtime : Z;
  mtime : Z;
  size : Z
}.

(** The three functions of [fsPromises] that [symLinkStat] awaits; each is
    answered by the world, whose state it may change. *)
Record FsPromises (World : Type) := mkFsPromises {
  lstat : string -> World -> (JsError + Stats) * World;
  stat : string -> World -> (JsError + Stats) * World;
  readlink : string -> World -> (JsError + string) * World
}.
Arguments lstat {World} _ _ _.
Arguments stat {World} _ _ _.
Arguments readlink {World} _ _ _.

End Node.

(** [error.code === code] *)
Definition code_is (code : string) (error : JsError) : bool :=
  bool_decide (err_code error = Some code).

Section SymLinkStat.

Context {World : Type}.
Variable fsPromises : Node.FsPromises World.
(** [process.platform] *)
Variable platform : string.

(** The inner [catch] of [symLinkStat], and the first half of the outer
    one: a link whose target does not exist is returned as dangling. *)
Definition dangling_or_throw (lstats : option Node.Stats) (error : JsError) (w : World)
    : (JsError + (Node.Stats * option bool)) * World :=
  match lstats with
  | Some l => if code_is "ENOENT" error then (inr (l, Some true), w) else (inl error, w)
  | None => (inl error, w)
  end.

(** The second [try] of [symLinkStat], with [lstats] as the first [try]
    left it ([None] is [undefined]). *)
Definition follow_link (lstats : option Node.Stats) (pat : string) (w : World)
    : (JsError + (Node.Stats * option bool)) * World :=
  match Node.stat fsPromises pat w with
  | (inr stats, w2) =>
      (inr (stats,
            if match lstats with Some l => Node.isSymbolicLink l | None => false end
            then Some false else None), w2)
  | (inl error, w2) =>
      if code_is "ENOENT" error && bool_decide (is_Some lstats)
      then dangling_or_throw lstats error w2
      else if String.eqb platform "win32" && code_is "EACCES" error
      then
        match Node.readlink fsPromises pat w2 with
        | (inr target, w3) =>
            match Node.stat fsPromises target w3 with
            | (inr stats, w4) => (inr (stats, Some false), w4)
            | (inl error', w4) => dangling_or_throw lstats error' w4
            end
        | (inl error', w3) => dangling_or_throw lstats error' w3
        end
      else (inl error, w2)
  end.

(** [symLinkStat(path)]: the returned [stat] and [symbolicLink], the latter
    as [Some dangling] when present. *)
Definition symLinkStat (pat : string) (w : World)
    : (JsError + (Node.Stats * option bool)) * World :=
  match Node.lstat fsPromises pat w with
  | (inr lstats, w1) =>
      if negb (Node.isSymbolicLink lstats) then (inr (lstats, None), w1)
      else follow_link (Some lstats) pat w1
  | (inl _, w1) => follow_link None pat w1
  end.

(** The part of [stat(uri)] that is not delegated to a provider. *)
Definition stat_on_disk (fsPath : URI -> string) (uri : URI) (w : World)
    : (JsError + FileStat) * World :=
  match symLinkStat (fsPath uri) w with
  | (inr (st, symbolicLink), w') =>
      (inr {| type := toType (Node.isFile st) (Node.isDirectory st) symbolicLink;
              ctime := Node.birthtime st;
              mtime := Node.mtime st;
              size := Node.size st;
              permissions := None |}, w')
  | (inl e, w') => (inl e, w')
  end.

(** A computation on the world whose calls are not among the recorded
    ones ([lstat], [stat] and [readlink] of the disk). *)
Definition on_world {A} (f : World -> (JsError + A) * World) : M World A :=
  fun s =>
    let (r, w) := f (world s) in
    (match r with inl e => Thrown e | inr a => Returned a end,
     {| world := w; calls := calls s; fsProvider := fsProvider s |}).

(** [stat(uri)] of the shim. *)
Definition stat (outside : Outside World) (fsPath : URI -> string) (uri : URI)
    : M World FileStat :=
  let* _fsProvider := gets fsProvider in
  let* provider := lift (withProvider _fsProvider (scheme uri)) in
  match provider with
  | Some p => call (ProviderStat (impl p) uri) (provider_stat outside (impl p) uri)
  | None => on_world (stat_on_disk fsPath uri)
  end.

End SymLinkStat.

(** The [stat()] of [fetchFileSystemProvider] in [initializeShimServices]:
    it fakes a file. *)
Definition fetch_stat : FileStat :=
  {| type := FileType.File; size := 0; mtime := 0; ctime := 0; permissions := None |}.

(** ** Notions the properties are stated with *)

(** The character occurs in the string. *)
Fixpoint char_occurs (c : ascii) (s : string) : bool :=
  match s with
  | EmptyString => false
  | String d rest => Ascii.eqb d c || char_occurs c rest
  end.

(** A URI as the constructor of [vscode-uri] leaves it: the path is resolved
    and passes the validation. *)
Definition well_formed (u : URI) : Prop :=
  Uri.validatePath (authority u) (path u) = None
  /\ Uri.referenceResolution (scheme u) (path u) = path u.

(** The calls [mkdirp] may make on a backend: [stat] and
    [createDirectory]. *)
Definition protocol_call (provider : Provider) (c : Call) : bool :=
  match c with
  | ProviderStat p _ | ProviderCreateDirectory p _ => Nat.eqb p provider
  | _ => false
  end.

(** A disk for the examples: one link at [/link], and what it points to. *)
Module ExampleDisk.

Definition a_link : Node.Stats :=
  {| Node.isFile := false; Node.isDirectory := false; Node.isSymbolicLink := true;
     Node.birthtime := 11; Node.mtime := 12; Node.size := 13 |}.

Definition a_directory : Node.Stats :=
  {| Node.isFile := false; Node.isDirectory := true; Node.isSymbolicLink := false;
     Node.birthtime := 21; Node.mtime := 22; Node.size := 23 |}.

Definition ENOENT : JsError :=
  {| err_class := ClassError; err_name := Some "Error";
     err_message := "ENOENT: no such file or directory"; err_code := Some "ENOENT" |}.

(** The world is the target of the link, if it has one. *)
Definition fsPromises : Node.FsPromises (option Node.Stats) :=
  {| Node.lstat := fun pat w =>
       if String.eqb pat "/link" then (inr a_link, w) else (inl ENOENT, w);
     Node.stat := fun pat w =>
       if String.eqb pat "/link"
       then (match w with Some target => inr target | None => inl ENOENT end, w)
       else (inl ENOENT, w);
     Node.readlink := fun pat w => (inl ENOENT, w) |}.

(** The same disk with a [readlink] that answers. *)
Definition resolving : Node.FsPromises (option Node.Stats) :=
  {| Node.lstat := Node.lstat fsPromises;
     Node.stat := Node.stat fsPromises;
     Node.readlink := fun pat w => (inr "/target", w) |}.

(** An outside world whose backend fakes a file for every [stat], like the
    network-fetch backend. *)
Definition fetching : Outside Example.World :=
  {| provider_stat := fun _ _ w => (inr fetch_stat, w);
     provider_createDirectory := Example.mem_createDirectory;
     provider_readFile := Example.mem_readFile;
     provider_writeFile := Example.mem_writeFile;
     fs_readFile := Example.disk_readFile;
     fs_mkdir := Example.disk_mkdir;
     fs_writeFile := Example.disk_writeFile;
     service_dispose := Example.a_service_dispose;
     subscription_dispose := fun _ w => (inr tt, w);
     context_subscriptions := fun _ => [] |}.

(** A backend that refuses to stat [/a] and has nothing else. *)
Definition denying : Outside Example.World :=
  {| provider_stat := fun p u w =>
       if String.eqb (path u) "/a"
       then (inl (FileSystemError.create Example.toString FileSystemError.NoPermissions
                    (OfUri u)), w)
       else Example.mem_stat p u w;
     provider_createDirectory := Example.mem_createDirectory;
     provider_readFile := Example.mem_readFile;
     provider_writeFile := Example.mem_writeFile;
     fs_readFile := Example.disk_readFile;
     fs_mkdir := Example.disk_mkdir;
     fs_writeFile := Example.disk_writeFile;
     service_dispose := Example.a_service_dispose;
     subscription_dispose := fun _ w => (inr tt, w);
     context_subscriptions := fun _ => [] |}.

(** A backend that does not let [/a/b] be created. *)
Definition guarded : Outside Example.World :=
  {| provider_stat := Example.mem_stat;
     provider_createDirectory := fun p u w =>
       if String.eqb (path u) "/a/b/"
       then (inl (FileSystemError.create Example.toString FileSystemError.NoPermissions
                    (OfUri u)), w)
       else Example.mem_createDirectory p u w;
     provider_readFile := Example.mem_readFile;
     provider_writeFile := Example.mem_writeFile;
     fs_readFile := Example.disk_readFile;
     fs_mkdir := Example.disk_mkdir;
     fs_writeFile := Example.disk_writeFile;
     service_dispose := Example.a_service_dispose;
     subscription_dispose := fun _ w => (inr tt, w);
     context_subscriptions := fun _ => [] |}.

(** A context whose array of subscriptions loses its second element when the
    first is disposed, as when that [dispose] unregisters a sibling: the
    world counts the subscriptions disposed. *)
Definition shrinking : Outside nat :=
  {| provider_stat := fun _ u w =>
       (inl (FileSystemError.create Example.toString FileSystemError.FileNotFound
               (OfUri u)), w);
     provider_createDirectory := fun _ _ w => (inr tt, w);
     provider_readFile := fun _ u w =>
       (inl (FileSystemError.create Example.toString FileSystemError.FileNotFound
               (OfUri u)), w);
     provider_writeFile := fun _ _ _ _ _ w => (inr tt, w);
     fs_readFile := fun _ w => (inl ENOENT, w);
     fs_mkdir := fun _ _ w => (inr tt, w);
     fs_writeFile := fun _ _ w => (inr tt, w);
     service_dispose := fun _ w => (inr tt, w);
     subscription_dispose := fun _ w => (inr tt, S w);
     context_subscriptions := fun w =>
       match w with
       | O => [Subscription 0; Subscription 1]
       | S _ => [Subscription 0]
       end |}.

(** A disk without anything, next to the in-memory backend. *)
Definition empty_disk : Node.FsPromises Example.World :=
  {| Node.lstat := fun _ w => (inl ENOENT, w);
     Node.stat := fun _ w => (inl ENOENT, w);
     Node.readlink := fun _ w => (inl ENOENT, w) |}.

(** A file on a web server. *)
Definition remote : URI :=
  {| scheme := "http"; authority := "example.org"; path := "/dist/browser/lib.d.ts";
     query := EmptyString; fragment := EmptyString |}.

(** The same file, asked for with a query. *)
Definition remote_with_query : URI :=
  {| scheme := "http"; authority := "example.org"; path := "/dist/browser/lib.d.ts";
     query := "v=2"; fragment := EmptyString |}.

End ExampleDisk.

(** * Properties *)

(** ** The error class *)

Section ErrorLabels.

Variable toString : bool -> URI -> string.

Lemma create_name (t : FileSystemError.Terminator) (m : MessageOrUri) :
  err_name (FileSystemError.create toString t m)
  = Some (FileSystemError.provider_code t +:+ " (FileSystemError)").
Proof. by destruct t. Qed.

Lemma create_code (t : FileSystemError.Terminator) (m : MessageOrUri) :
  err_code (FileSystemError.create toString t m) = Some (FileSystemError.function_name t).
Proof. reflexivity. Qed.

Lemma create_first_word (t : FileSystemError.Terminator) (m : MessageOrUri) :
  JsString.split_space_0
    (default EmptyString (err_name (FileSystemError.create toString t m)))
  = Some (FileSystemError.provider_code t).
Proof. by destruct t. Qed.

(** An error of the class is taken for the table entry of its constructor and
    for no other entry: the [catch] blocks of [mkdirp] go by the label, the
    [code] property of such an error never equals a table entry that begins
    with [Entry]. *)
Lemma not_recognised_create (t : FileSystemError.Terminator) (m : MessageOrUri)
    (code : string) :
  not_recognised code (FileSystemError.create toString t m)
  = negb (bool_decide (FileSystemError.function_name t = code))
    && negb (bool_decide (FileSystemError.provider_code t = code)).
Proof.
  unfold not_recognised. rewrite create_first_word, create_code.
  f_equal; f_equal; apply bool_decide_ext; split; congruence.
Qed.

(** C3 (as amended).  Every error made by one of the six static constructors
    carries the label [<P> (FileSystemError)], where [<P>] is the entry of
    [FileSystemProviderErrorCode] the constructor passes ([EntryExists],
    [EntryNotFound], [EntryNotADirectory], [EntryIsADirectory],
    [NoPermissions], [Unavailable]); the text of the label up to its first
    space is that entry; the [code] property is the name of the constructor;
    and the two agree for [NoPermissions] and [Unavailable] only. *)
Theorem label_recovers_provider_code (t : FileSystemError.Terminator) (m : MessageOrUri) :
  let e := FileSystemError.create toString t m in
  err_class e = ClassFileSystemError
  /\ err_name e = Some (FileSystemError.provider_code t +:+ " (FileSystemError)")
  /\ JsString.split_space_0 (default EmptyString (err_name e))
     = Some (FileSystemError.provider_code t)
  /\ err_code e = Some (FileSystemError.function_name t)
  /\ (JsString.split_space_0 (default EmptyString (err_name e)) = err_code e
      <-> t = FileSystemError.NoPermissions \/ t = FileSystemError.Unavailable).
Proof.
  cbv zeta. rewrite create_first_word, create_code, create_name.
  repeat split; try done.
  - destruct t; cbn; intros [=]; auto.
  - intros [-> | ->]; reflexivity.
Qed.

End ErrorLabels.

(** C3, as stated, fails: the label of [FileSystemError.FileNotFound("x")] is
    [EntryNotFound (FileSystemError)], its first word is [EntryNotFound], and
    the [code] property is [FileNotFound]. *)
Lemma label_of_FileNotFound_is_not_its_code :
  let e := FileSystemError.create Example.toString FileSystemError.FileNotFound (Message "x") in
  err_name e = Some "EntryNotFound (FileSystemError)"
  /\ err_code e = Some "FileNotFound"
  /\ JsString.split_space_0 (default EmptyString (err_name e)) = Some "EntryNotFound"
  /\ JsString.split_space_0 (default EmptyString (err_name e)) <> err_code e
  /\ err_name e <> Some ("FileNotFound" +:+ " (FileSystemError)").
Proof. cbv zeta. repeat split; discriminate. Qed.

(** ** The provider registry *)

Section Registry.

Implicit Types (m : gmap string Registration) (scheme : string).

Lemma add_registered scheme provider options m r :
  m !! scheme = Some r ->
  _addFileSystemProvider scheme provider options m
  = (inl (new_Error ("A provider with scheme " +:+ scheme +:+ " is already registered")), m).
Proof. unfold _addFileSystemProvider. by intros ->. Qed.

Lemma add_fresh scheme provider options m :
  m !! scheme = None ->
  _addFileSystemProvider scheme provider options m
  = (inr (FsProviderHandle scheme),
     <[scheme := {| impl := provider; isReadonly := readonly_flag options |}]> m).
Proof. unfold _addFileSystemProvider. by intros ->. Qed.

Lemma handle_dispose_absent scheme m :
  m !! scheme = None -> handle_dispose scheme m = m.
Proof. apply delete_id. Qed.

Lemma handle_dispose_twice scheme m :
  handle_dispose scheme (handle_dispose scheme m) = handle_dispose scheme m.
Proof. unfold handle_dispose. apply delete_id, lookup_delete_eq. Qed.

(** Property 1 of the spec: a registered scheme is writable exactly when it
    is not registered read-only, an unregistered one has no answer. *)
Lemma isWritableFileSystem_spec scheme m :
  isWritableFileSystem m scheme = (fun r => negb (isReadonly r)) <$> (m !! scheme).
Proof. unfold isWritableFileSystem. by destruct (m !! scheme). Qed.

(** C8 (as amended).  Registering a scheme that has an entry throws a plain
    [Error] and leaves the map as it was.  Registering a scheme that has none
    returns a handle; the map then has the new entry, every other scheme is
    as before, and disposing the handle right away removes exactly the new
    entry (the map is again what it was).  The handle goes by its scheme: it
    removes whatever entry the scheme has when it is invoked and touches no
    other scheme.  Invoked when the scheme has no entry, in particular a
    second time in a row, it changes nothing; but once the scheme has been
    registered anew, the handle of the earlier registration, which is the
    same as the handle of the later one, removes the later entry. *)
Theorem registration_and_disposal scheme provider options m :
  (is_Some (m !! scheme) ->
     exists e, _addFileSystemProvider scheme provider options m = (inl e, m)
               /\ err_class e = ClassError /\ err_code e = None)
  /\ (m !! scheme = None ->
        exists m',
          _addFileSystemProvider scheme provider options m
          = (inr (FsProviderHandle scheme), m')
          /\ m' !! scheme = Some {| impl := provider; isReadonly := readonly_flag options |}
          /\ (forall other, other <> scheme -> m' !! other = m !! other)
          /\ handle_dispose scheme m' !! scheme = None
          /\ (forall other, other <> scheme ->
                handle_dispose scheme m' !! other = m' !! other)
          /\ handle_dispose scheme m' = m)
  /\ handle_dispose scheme (handle_dispose scheme m) = handle_dispose scheme m
  /\ (m !! scheme = None -> handle_dispose scheme m = m)
  /\ (handle_dispose scheme m !! scheme = None
      /\ forall other, other <> scheme -> handle_dispose scheme m !! other = m !! other)
  /\ (is_Some (m !! scheme) -> handle_dispose scheme m <> m)
  /\ (m !! scheme = None ->
      forall provider' options',
        let registered := (_addFileSystemProvider scheme provider options m).2 in
        let disposed := handle_dispose scheme registered in
        let again := _addFileSystemProvider scheme provider' options' disposed in
        again.1 = (_addFileSystemProvider scheme provider options m).1
        /\ again.2 !! scheme
           = Some {| impl := provider'; isReadonly := readonly_flag options' |}
        /\ handle_dispose scheme again.2 !! scheme = None
        /\ handle_dispose scheme again.2 <> again.2).
Proof.
  assert (Hremoves : forall m0 : gmap string Registration,
            is_Some (m0 !! scheme) -> handle_dispose scheme m0 <> m0).
  { intros m0 [r Hr] Heq. apply (f_equal (fun x => x !! scheme)) in Heq.
    unfold handle_dispose in Heq. rewrite lookup_delete_eq, Hr in Heq. done. }
  split; [|split; [|split; [|split; [|split; [|split]]]]].
  - intros [r Hr]. eexists. rewrite (add_registered _ _ _ _ _ Hr). done.
  - intros Hm. eexists. rewrite (add_fresh _ _ _ _ Hm). unfold handle_dispose.
    split; [done|]. split; [apply lookup_insert_eq|].
    split; [intros other Ho; by apply lookup_insert_ne|].
    split; [apply lookup_delete_eq|].
    split; [intros other Ho; by apply lookup_delete_ne|].
    rewrite delete_insert_eq. by apply delete_id.
  - apply handle_dispose_twice.
  - apply handle_dispose_absent.
  - unfold handle_dispose. split; [apply lookup_delete_eq|].
    intros other Ho. by apply lookup_delete_ne.
  - apply Hremoves.
  - intros Hm provider' options'. cbv zeta.
    rewrite (add_fresh _ _ _ _ Hm). cbn [fst snd].
    assert (Hback : handle_dispose scheme
                      (<[scheme := {| impl := provider;
                                      isReadonly := readonly_flag options |}]> m) = m).
    { unfold handle_dispose. rewrite delete_insert_eq. by apply delete_id. }
    rewrite Hback, (add_fresh _ _ _ _ Hm). cbn [fst snd].
    split; [done|]. split; [apply lookup_insert_eq|].
    split; [apply lookup_delete_eq|].
    apply Hremoves. rewrite lookup_insert_eq. by eexists.
Qed.

End Registry.

Lemma registration_and_disposal_witness :
  let m : gmap string Registration := {[ "memfs" := {| impl := 1%nat; isReadonly := true |} ]} in
  (exists e, _addFileSystemProvider "memfs" 2%nat None m = (inl e, m)
             /\ err_class e = ClassError /\ err_code e = None)
  /\ (exists m', _addFileSystemProvider "http" 2%nat None m = (inr (FsProviderHandle "http"), m')
                 /\ handle_dispose "http" m' = m).
Proof.
  cbv zeta.
  pose proof (registration_and_disposal "memfs" 2%nat None
                {[ "memfs" := {| impl := 1%nat; isReadonly := true |} ]}) as (H1 & _).
  pose proof (registration_and_disposal "http" 2%nat None
                {[ "memfs" := {| impl := 1%nat; isReadonly := true |} ]}) as (_ & H2 & _).
  split.
  - apply H1. by eexists.
  - destruct (H2 eq_refl) as (m' & ? & _ & _ & _ & _ & ?). by exists m'.
Defined.

(** A handle goes by its scheme: once its entry is gone and the scheme is
    registered anew, the old handle removes the new entry. *)
Remark stale_handle_removes_later_registration :
  let m0 : gmap string Registration := ∅ in
  let m1 := (_addFileSystemProvider "memfs" 1%nat None m0).2 in
  let m2 := handle_dispose "memfs" m1 in
  let m3 := (_addFileSystemProvider "memfs" 2%nat None m2).2 in
  m3 !! "memfs" = Some {| impl := 2%nat; isReadonly := false |}
  /\ handle_dispose "memfs" m3 !! "memfs" = None.
Proof. cbv zeta. split; reflexivity. Qed.

(** C8, as stated, fails: the handle of a registration does not remove
    exactly that registration's entry, and a second invocation is not always
    a no-op.  [memfs] is registered with backend 1 and its handle is
    disposed; [memfs] is registered again, with backend 2; the first handle,
    invoked a second time when its own entry is long gone, removes the entry
    of backend 2. *)
Lemma second_disposal_removes_another_registration :
  let m0 : gmap string Registration := ∅ in
  let first := _addFileSystemProvider "memfs" 1%nat None m0 in
  let disposed_once := handle_dispose "memfs" first.2 in
  let second := _addFileSystemProvider "memfs" 2%nat None disposed_once in
  let disposed_twice := handle_dispose "memfs" second.2 in
  first.1 = inr (FsProviderHandle "memfs")
  /\ disposed_once !! "memfs" = None
  /\ second.2 !! "memfs" = Some {| impl := 2%nat; isReadonly := false |}
  /\ disposed_twice !! "memfs" = None
  /\ disposed_twice <> second.2.
Proof.
  cbv zeta. repeat split; try reflexivity.
  intros H. apply (f_equal (fun m => m !! "memfs")) in H. discriminate H.
Qed.

(** ** Reading and writing through the router *)

Section ReadWrite.

Context {World : Type}.
Variable outside : Outside World.
Variable toString : bool -> URI -> string.
Variable fsPath : URI -> string.
Variable extensionUri : option URI.

Lemma withProvider_registered (m : gmap string Registration) (scheme : string) r :
  m !! scheme = Some r -> withProvider m scheme = inr (Some r).
Proof. unfold withProvider. by intros ->. Qed.

Lemma withProvider_unregistered (m : gmap string Registration) (scheme : string) :
  m !! scheme = None ->
  withProvider m scheme = inl (new_Error ("Unsupported URI scheme " +:+ scheme)).
Proof. unfold withProvider. by intros ->. Qed.

(** [withProvider] never returns without a provider, so the branch of
    [readFile] that reads the disk is never taken. *)
Lemma withProvider_returns_a_provider (m : gmap string Registration) (scheme : string) :
  withProvider m scheme <> inr None.
Proof. unfold withProvider. destruct (m !! scheme) eqn:E; rewrite ?E; discriminate. Qed.

Lemma readFile_registered (uri : URI) (s : State World) r :
  fsProvider s !! scheme uri = Some r ->
  readFile outside extensionUri uri s
  = call (ProviderReadFile (impl r) uri) (provider_readFile outside (impl r) uri) s.
Proof.
  intros Hr. unfold readFile, bind, gets. cbn.
  by rewrite (withProvider_registered _ _ _ Hr).
Qed.

(** C4 (as amended).  For a URI whose scheme has no registered provider,
    [readFile] throws the plain error [Unsupported URI scheme <scheme>] of
    [withProvider]; nothing is read, neither from a backend nor from the
    disk. *)
Theorem readFile_unregistered_scheme (uri : URI) (s : State World) :
  fsProvider s !! scheme uri = None ->
  readFile outside extensionUri uri s
  = (Thrown (new_Error ("Unsupported URI scheme " +:+ scheme uri)), s).
Proof.
  intros Hr. unfold readFile, bind, gets. cbn.
  by rewrite (withProvider_unregistered _ _ Hr).
Qed.

(** Whatever the registrations, [readFile] does not read the disk. *)
Lemma readFile_never_reads_the_disk (uri : URI) (s : State World) :
  let s' := (readFile outside extensionUri uri s).2 in
  calls s' = calls s
  \/ exists r, fsProvider s !! scheme uri = Some r
               /\ calls s' = calls s ++ [ProviderReadFile (impl r) uri].
Proof.
  cbv zeta. destruct (fsProvider s !! scheme uri) as [r|] eqn:Hr.
  - right. exists r. split; [done|]. rewrite (readFile_registered _ _ _ Hr).
    unfold call. by destruct (provider_readFile _ _ _ _).
  - left. unfold readFile, bind, gets. cbn.
    by rewrite (withProvider_unregistered _ _ Hr).
Qed.

(** C1 (as amended).  For a URI whose scheme is registered read-only,
    [writeFile] calls no method of the registered backend (no [stat], no
    [createDirectory], no [writeFile]).  It creates the parent directory of
    the resolved path on the disk, recursively, and writes the content to the
    resolved path; it fails only with what these two disk operations
    throw. *)
Theorem writeFile_readonly_goes_to_disk (fuel : nat) (uri : URI)
    (content : list Byte.byte) (s : State World) r :
  fsProvider s !! scheme uri = Some r ->
  isReadonly r = true ->
  let pat := fromResource extensionUri uri in
  let parent := JsString.replace_last_segment pat in
  writeFile outside toString fsPath extensionUri fuel uri content s
  = match fs_mkdir outside parent true (world s) with
    | (inl e, w) =>
        (Thrown e,
         {| world := w; calls := calls s ++ [FsMkdir parent true];
            fsProvider := fsProvider s |})
    | (inr _, w) =>
        match fs_writeFile outside pat content w with
        | (inl e, w') =>
            (Thrown e,
             {| world := w';
                calls := calls s ++ [FsMkdir parent true; FsWriteFile pat content];
                fsProvider := fsProvider s |})
        | (inr _, w') =>
            (Returned tt,
             {| world := w';
                calls := calls s ++ [FsMkdir parent true; FsWriteFile pat content];
                fsProvider := fsProvider s |})
        end
    end.
Proof.
  intros Hr Hro. cbv zeta. unfold writeFile, bind, gets. cbn.
  rewrite (withProvider_registered _ _ _ Hr). cbn. rewrite Hro. cbn.
  unfold call. cbn.
  destruct (fs_mkdir _ _ _ _) as [[e|[]] w]; [done|]. cbn.
  destruct (fs_writeFile _ _ _ _) as [[e|[]] w']; cbn; by rewrite <- app_assoc.
Qed.

(** For a scheme with no registration [writeFile] throws like [readFile]. *)
Lemma writeFile_unregistered_scheme (fuel : nat) (uri : URI)
    (content : list Byte.byte) (s : State World) :
  fsProvider s !! scheme uri = None ->
  writeFile outside toString fsPath extensionUri fuel uri content s
  = (Thrown (new_Error ("Unsupported URI scheme " +:+ scheme uri)), s).
Proof.
  intros Hr. unfold writeFile, bind, gets. cbn.
  by rewrite (withProvider_unregistered _ _ Hr).
Qed.

End ReadWrite.

Lemma readFile_unregistered_scheme_witness :
  readFile Example.outside None (Example.uri "memfs" "/a/b") (Example.start Example.nothing ∅)
  = (Thrown (new_Error "Unsupported URI scheme memfs"), Example.start Example.nothing ∅).
Proof. apply (readFile_unregistered_scheme Example.outside None). reflexivity. Defined.

(** C4, as stated, fails: the disk holds a file at the resolved path
    [/memfs//a/b], no provider is registered for [memfs], and [readFile]
    throws the error of the scheme dispatch without reading anything. *)
Lemma readFile_unregistered_does_not_read_the_disk :
  let u := Example.uri "memfs" "/a/b" in
  let w := {| Example.entries := []; Example.disk := [("/memfs//a/b", Example.hello)];
              Example.broken_service := None |} in
  let s := Example.start w ∅ in
  fsProvider s !! scheme u = None
  /\ fs_readFile Example.outside (fromResource None u) w = (inr Example.hello, w)
  /\ readFile Example.outside None u s
     = (Thrown (new_Error "Unsupported URI scheme memfs"), s)
  /\ readFile Example.outside None u s <> (Returned Example.hello, s)
  /\ calls (readFile Example.outside None u s).2 = [].
Proof. cbv zeta. repeat split; try reflexivity. discriminate. Qed.

Lemma writeFile_readonly_goes_to_disk_witness :
  let u := Example.uri "memfs" "/a/b" in
  let s := Example.start Example.nothing
             {[ "memfs" := {| impl := 0%nat; isReadonly := true |} ]} in
  writeFile Example.outside Example.toString Example.fsPath None 3 u Example.hello s
  = (Returned tt,
     {| world := {| Example.entries := [];
                    Example.disk := [("/memfs//a/b", Example.hello)];
                    Example.broken_service := None |};
        calls := [FsMkdir "/memfs//a" true; FsWriteFile "/memfs//a/b" Example.hello];
        fsProvider := fsProvider s |}).
Proof.
  cbv zeta.
  rewrite (writeFile_readonly_goes_to_disk Example.outside Example.toString Example.fsPath
             None 3 (Example.uri "memfs" "/a/b") Example.hello _
             {| impl := 0%nat; isReadonly := true |});
    reflexivity.
Defined.

(** C1, as stated, fails: with [memfs] registered read-only, [writeFile]
    returns normally, having written the content to the disk; no
    [FileSystemError] with code [NoPermissions] is thrown. *)
Lemma writeFile_readonly_is_not_rejected :
  let u := Example.uri "memfs" "/a/b" in
  let m : gmap string Registration := {[ "memfs" := {| impl := 0%nat; isReadonly := true |} ]} in
  let result :=
    writeFile Example.outside Example.toString Example.fsPath None 3 u Example.hello
      (Example.start Example.nothing m) in
  isWritableFileSystem m (scheme u) = Some false
  /\ result.1 = Returned tt
  /\ (forall e, result.1 = Thrown e -> False)
  /\ calls result.2 = [FsMkdir "/memfs//a" true; FsWriteFile "/memfs//a/b" Example.hello]
  /\ Example.disk (world result.2) = [("/memfs//a/b", Example.hello)].
Proof. cbv zeta. repeat split; try reflexivity. intros e. discriminate. Qed.

(** ** Initialisation and disposal of the services *)

Section Lifecycle.

Context {World : Type}.
Variable outside : Outside World.

Lemma bind_ret_tt (m : M World unit) (s : State World) :
  bind m (fun _ => ret tt) s = m s.
Proof. unfold bind, ret. by destruct (m s) as [[[]| |] ?]. Qed.

Lemma bind_ext {A B} (m : M World A) (k1 k2 : A -> M World B) (s : State World) :
  (forall a s', k1 a s' = k2 a s') -> bind m k1 s = bind m k2 s.
Proof. intros H. unfold bind. destruct (m s) as [[a| |] s']; auto. Qed.

Lemma bind_assoc {A B C} (m : M World A) (k : A -> M World B) (h : B -> M World C)
    (s : State World) :
  bind (bind m k) h s = bind m (fun a => bind (k a) h) s.
Proof. unfold bind. by destruct (m s) as [[a| |] s1]. Qed.

(** One [d.dispose()], by what the world answers. *)
Lemma dispose_call_run (d : IDisposable) (s : State World) :
  dispose_call outside d s
  = match dispose_answer outside d (world s) with
    | (inl e, w) => (Thrown e, after_dispose s d w)
    | (inr _, w) => (Returned tt, after_dispose s d w)
    end.
Proof.
  destruct d as [sv|id|scheme]; cbn.
  - unfold call. by destruct (service_dispose outside sv (world s)) as [[e|[]] w].
  - unfold call. by destruct (subscription_dispose outside id (world s)) as [[e|[]] w].
  - reflexivity.
Qed.

Lemma forEach_dispose_run (array : list IDisposable) (s : State World) :
  forEach_dispose outside array s = disposal_run outside array s.
Proof.
  revert s. induction array as [|d rest IH]; intros s; [done|].
  cbn [forEach_dispose disposal_run]. unfold bind. rewrite dispose_call_run.
  destruct (dispose_answer outside d (world s)) as [[e|[]] w]; [done|apply IH].
Qed.

Lemma disposal_run_app (first later : list IDisposable) (s : State World) :
  disposal_run outside (first ++ later) s
  = match disposal_run outside first s with
    | (Returned _, s1) => disposal_run outside later s1
    | (Thrown e, s1) => (Thrown e, s1)
    | (OutOfFuel, s1) => (OutOfFuel, s1)
    end.
Proof.
  revert s. induction first as [|d first IH]; intros s; [done|].
  cbn [app disposal_run].
  destruct (dispose_answer outside d (world s)) as [[e|[]] w]; [done|apply IH].
Qed.

Lemma disposal_run_calls (order : list IDisposable) (s s1 : State World) :
  disposal_run outside order s = (Returned tt, s1) ->
  calls s1 = calls s ++ map Dispose order.
Proof.
  revert s. induction order as [|d later IH]; intros s; cbn [disposal_run map].
  - intros [= <-]. by rewrite app_nil_r.
  - destruct (dispose_answer outside d (world s)) as [[e|[]] w]; [done|].
    intros Hrun. rewrite (IH _ Hrun). cbn. by rewrite <- app_assoc.
Qed.

Lemma disposal_run_stops (before after : list IDisposable) (d : IDisposable)
    (s0 s1 : State World) e w :
  disposal_run outside before s0 = (Returned tt, s1) ->
  dispose_answer outside d (world s1) = (inl e, w) ->
  disposal_run outside (before ++ d :: after) s0 = (Thrown e, after_dispose s1 d w)
  /\ calls (after_dispose s1 d w) = calls s0 ++ map Dispose (before ++ [d]).
Proof.
  intros Hbefore Hd. split.
  - rewrite disposal_run_app, Hbefore. cbn [disposal_run]. by rewrite Hd.
  - cbn. rewrite (disposal_run_calls _ _ _ Hbefore), map_app. cbn.
    by rewrite <- app_assoc.
Qed.

(** The rounds of the loop over [context.subscriptions], when no [dispose]
    changes the array. *)
Lemma forEach_subscription_run (subscriptions : list IDisposable) :
  subscriptions_stay outside subscriptions ->
  forall (rest visited : list IDisposable) (s : State World),
    subscriptions = visited ++ rest ->
    context_subscriptions outside (world s) = subscriptions ->
    forEach_subscription outside (length rest) (length visited) s
    = disposal_run outside rest s.
Proof.
  intros Hstay rest. induction rest as [|d rest IH]; intros visited s Hsplit Harray.
  { reflexivity. }
  cbn [length forEach_subscription disposal_run]. unfold bind, gets. cbn.
  rewrite Harray, Hsplit, list_lookup_middle by done.
  rewrite dispose_call_run.
  assert (Hd : In d subscriptions).
  { rewrite Hsplit. apply in_or_app. right. by left. }
  pose proof (Hstay d (world s) Hd) as Hsame.
  destruct (dispose_answer outside d (world s)) as [[e|[]] w]; [done|]. cbn in Hsame.
  replace (S (length visited)) with (length (visited ++ [d]))
    by (rewrite length_app; cbn; lia).
  apply IH.
  - by rewrite <- app_assoc.
  - cbn. by rewrite Hsame.
Qed.

Lemma dispose_subscriptions_run (s : State World) :
  subscriptions_stay outside (context_subscriptions outside (world s)) ->
  dispose_subscriptions outside s
  = disposal_run outside (context_subscriptions outside (world s)) s.
Proof.
  intros Hstay. unfold dispose_subscriptions, bind, gets. cbn.
  by apply (forEach_subscription_run _ Hstay _ []).
Qed.

(** [dispose] is the loop over the five services, the loop over the
    subscriptions and the loop over the provider registrations. *)
Lemma dispose_in_three (bundle : Bundle) (s : State World) :
  dispose outside bundle s
  = (forEach_dispose outside services_in_order ;;
     dispose_subscriptions outside ;;
     forEach_dispose outside (FsProviderDisposables bundle)) s.
Proof.
  unfold dispose, services_in_order. cbn [forEach_dispose]. symmetry.
  do 5 (rewrite bind_assoc; apply bind_ext; intros _ ?).
  reflexivity.
Qed.

(** C2 (as amended).  [dispose()] of a bundle takes the disposal steps in the
    fixed order (configuration, language features, commands, workspace,
    window, every context subscription, then the filesystem-provider
    registrations), each step only after the steps before it have returned:
    the first step that throws ends [dispose] with that error and no later
    step is attempted; when no step throws, every step is run, once, and
    [dispose] returns.  The subscriptions are the elements of
    [context.subscriptions] as the array is once the window service is
    disposed, provided that disposing a subscription does not change the
    array.  [disposal_run] is this run in order: by the last two parts a
    step that throws after the steps before it returned ends it with that
    error, the calls made being those up to that step, and a run that returns
    has called [dispose] on every object, in order. *)
Theorem dispose_runs_in_order_until_a_step_throws (bundle : Bundle) (s : State World) :
  let after_services := disposal_run outside services_in_order s in
  let subscriptions := context_subscriptions outside (world after_services.2) in
  (after_services.1 <> Returned tt -> dispose outside bundle s = after_services)
  /\ (subscriptions_stay outside subscriptions ->
      dispose outside bundle s
      = disposal_run outside (disposal_order subscriptions bundle) s)
  /\ (forall before d after s0 s1 e w,
        disposal_run outside before s0 = (Returned tt, s1) ->
        dispose_answer outside d (world s1) = (inl e, w) ->
        disposal_run outside (before ++ d :: after) s0 = (Thrown e, after_dispose s1 d w)
        /\ calls (after_dispose s1 d w) = calls s0 ++ map Dispose (before ++ [d]))
  /\ (forall order s0 s1,
        disposal_run outside order s0 = (Returned tt, s1) ->
        calls s1 = calls s0 ++ map Dispose order).
Proof.
  cbv zeta. split; [|split; [|split]].
  - intros Hthrew. rewrite dispose_in_three. unfold bind at 1.
    rewrite forEach_dispose_run.
    by destruct (disposal_run outside services_in_order s) as [[[]| |] s5].
  - intros Hstay. rewrite dispose_in_three. unfold bind at 1.
    rewrite forEach_dispose_run. unfold disposal_order.
    change [OfService configurationService; OfService languageFeaturesService;
            OfService commandsService; OfService workspaceService;
            OfService windowService] with services_in_order.
    rewrite disposal_run_app.
    destruct (disposal_run outside services_in_order s) as [[[]| |] s5]; [|done..].
    cbn [snd] in Hstay. unfold bind.
    rewrite (dispose_subscriptions_run _ Hstay), disposal_run_app.
    destruct (disposal_run outside _ s5) as [[[]| |] s6]; [|done..].
    apply forEach_dispose_run.
  - intros before d after s0 s1 e w. apply disposal_run_stops.
  - intros order s0 s1. apply disposal_run_calls.
Qed.

(** The array of subscriptions is read as [forEach] goes: an element that is
    no longer there when its index comes up is skipped. *)
Example dispose_reads_the_subscriptions_as_it_goes :
  let bundle := {| FsProviderDisposables := [] |} in
  let s := {| world := 0%nat; calls := []; fsProvider := ∅ |} in
  let result := dispose ExampleDisk.shrinking bundle s in
  context_subscriptions ExampleDisk.shrinking (world s) = [Subscription 0; Subscription 1]
  /\ result.1 = Returned tt
  /\ calls result.2 = map Dispose (services_in_order ++ [Subscription 0])
  /\ ~ subscriptions_stay ExampleDisk.shrinking [Subscription 0; Subscription 1].
Proof.
  cbv zeta. repeat split; try reflexivity.
  intros Hstay. specialize (Hstay (Subscription 0) 0%nat (or_introl eq_refl)).
  discriminate Hstay.
Qed.

(** The closure of [shims/index.ts] is the same without the last step. *)
Lemma dispose_without_fs_providers_eq (s : State World) :
  dispose_without_fs_providers outside s
  = dispose outside {| FsProviderDisposables := [] |} s.
Proof.
  unfold dispose_without_fs_providers, dispose. cbn [FsProviderDisposables forEach_dispose].
  do 5 (apply bind_ext; intros _ ?).
  symmetry. apply bind_ret_tt.
Qed.

(** C9 (as amended).  With [BROWSER_ENV] set and neither [http] nor [https]
    registered yet, [initializeShimServices] registers the network-fetch
    backend for [http] and for [https] in the workspace's filesystem router,
    both with the options [{}]: neither registration is read-only, and the
    router reports both schemes as writable.  The two handles are kept, in
    this order, in [FsProviderDisposables], apart from the services.
    Without [BROWSER_ENV] nothing is registered and the array is empty. *)
Theorem initializeShimServices_registers_fetch_providers
    (fetchFileSystemProvider : Provider) (s : State World) :
  fsProvider s !! "http" = None ->
  fsProvider s !! "https" = None ->
  let registration := {| impl := fetchFileSystemProvider; isReadonly := false |} in
  let m' := <["https" := registration]> (<["http" := registration]> (fsProvider s)) in
  initializeShimServices true fetchFileSystemProvider s
  = (Returned {| FsProviderDisposables := [FsProviderHandle "http"; FsProviderHandle "https"] |},
     {| world := world s; calls := calls s; fsProvider := m' |})
  /\ m' !! "http" = Some registration
  /\ m' !! "https" = Some registration
  /\ isWritableFileSystem m' "http" = Some true
  /\ isWritableFileSystem m' "https" = Some true
  /\ (forall other, other <> "http" -> other <> "https" -> m' !! other = fsProvider s !! other)
  /\ initializeShimServices false fetchFileSystemProvider s
     = (Returned {| FsProviderDisposables := [] |}, s).
Proof.
  intros Hhttp Hhttps. cbv zeta.
  assert (Hm1 : (<["https" := {| impl := fetchFileSystemProvider; isReadonly := false |}]>
                  (<["http" := {| impl := fetchFileSystemProvider; isReadonly := false |}]>
                     (fsProvider s))) !! "http"
                = Some {| impl := fetchFileSystemProvider; isReadonly := false |}).
  { rewrite lookup_insert_ne by discriminate. apply lookup_insert_eq. }
  split; [|split; [|split; [|split; [|split; [|split]]]]].
  - unfold initializeShimServices, registerFileSystemProvider, on_fsProvider, bind, ret.
    cbn. rewrite (add_fresh _ _ _ _ Hhttp). cbn.
    rewrite add_fresh; [done|]. by rewrite lookup_insert_ne.
  - exact Hm1.
  - apply lookup_insert_eq.
  - unfold isWritableFileSystem. by rewrite Hm1.
  - unfold isWritableFileSystem. by rewrite lookup_insert_eq.
  - intros other H1 H2. by rewrite !lookup_insert_ne.
  - reflexivity.
Qed.

End Lifecycle.

Lemma initializeShimServices_registers_fetch_providers_witness :
  initializeShimServices true 7%nat (Example.start Example.nothing ∅)
  = (Returned {| FsProviderDisposables := [FsProviderHandle "http"; FsProviderHandle "https"] |},
     Example.start Example.nothing
       (<["https" := {| impl := 7%nat; isReadonly := false |}]>
          (<["http" := {| impl := 7%nat; isReadonly := false |}]> ∅))).
Proof.
  apply (initializeShimServices_registers_fetch_providers 7%nat
           (Example.start Example.nothing ∅)); reflexivity.
Defined.

Lemma dispose_runs_in_order_until_a_step_throws_witness :
  let bundle := {| FsProviderDisposables := [FsProviderHandle "http"; FsProviderHandle "https"] |} in
  let s := (initializeShimServices true 7%nat (Example.start Example.nothing ∅)).2 in
  let broken := {| Example.entries := []; Example.disk := [];
                   Example.broken_service := Some workspaceService |} in
  let s_broken := (initializeShimServices true 7%nat (Example.start broken ∅)).2 in
  dispose Example.outside bundle s
  = disposal_run Example.outside
      (disposal_order [Subscription 0; Subscription 1] bundle) s
  /\ dispose Example.outside bundle s_broken
     = (Thrown (new_Error "dispose failed"),
        {| world := broken;
           calls := map Dispose [OfService configurationService;
                                 OfService languageFeaturesService;
                                 OfService commandsService;
                                 OfService workspaceService];
           fsProvider := fsProvider s_broken |}).
Proof.
  cbv zeta. split.
  - destruct (dispose_runs_in_order_until_a_step_throws Example.outside
                {| FsProviderDisposables := [FsProviderHandle "http"; FsProviderHandle "https"] |}
                (initializeShimServices true 7%nat (Example.start Example.nothing ∅)).2)
      as (_ & Hall & _).
    apply Hall. intros d w _. reflexivity.
  - destruct (dispose_runs_in_order_until_a_step_throws Example.outside
                {| FsProviderDisposables := [FsProviderHandle "http"; FsProviderHandle "https"] |}
                (initializeShimServices true 7%nat
                   (Example.start
                      {| Example.entries := []; Example.disk := [];
                         Example.broken_service := Some workspaceService |} ∅)).2)
      as (Hstops & _).
    rewrite Hstops; [reflexivity | discriminate].
Defined.

(** C9, as stated, fails in one word: the two registrations are not
    read-only.  After the initialisation in browser mode the entry of [http]
    (and of [https]) has [isReadonly = false], and the router answers that the
    scheme is writable. *)
Lemma fetch_providers_are_not_registered_readonly :
  let s' := (initializeShimServices true 7%nat (Example.start Example.nothing ∅)).2 in
  isReadonly <$> (fsProvider s' !! "http") = Some false
  /\ isReadonly <$> (fsProvider s' !! "https") = Some false
  /\ isWritableFileSystem (fsProvider s') "http" = Some true
  /\ isWritableFileSystem (fsProvider s') "https" = Some true
  /\ isReadonly <$> (fsProvider s' !! "http") <> Some true.
Proof. cbv zeta. repeat split; try reflexivity. discriminate. Qed.

(** C2, as stated, fails: when the [dispose] of the configuration service
    throws, [dispose()] of the bundle throws that error at once.  The
    language features, the commands, the workspace, the window, the two
    subscriptions and the two provider registrations are not disposed: the
    only call made is the first, and [http] and [https] stay registered. *)
Lemma dispose_stops_at_a_failing_step :
  let w := {| Example.entries := []; Example.disk := [];
              Example.broken_service := Some configurationService |} in
  let bundle := {| FsProviderDisposables := [FsProviderHandle "http"; FsProviderHandle "https"] |} in
  let initialised := initializeShimServices true 7%nat (Example.start w ∅) in
  let result := dispose Example.outside bundle initialised.2 in
  initialised.1 = Returned bundle
  /\ result.1 = Thrown (new_Error "dispose failed")
  /\ calls result.2 = [Dispose (OfService configurationService)]
  /\ ~ In (Dispose (OfService languageFeaturesService)) (calls result.2)
  /\ ~ In (Dispose (FsProviderHandle "http")) (calls result.2)
  /\ is_Some (fsProvider result.2 !! "http")
  /\ is_Some (fsProvider result.2 !! "https").
Proof.
  cbv zeta. repeat split; try reflexivity.
  - intros [H|[]]. discriminate H.
  - intros [H|[]]. discriminate H.
  - by eexists.
  - by eexists.
Qed.

(** When no step throws, every step runs and the registrations are gone. *)
Example dispose_runs_every_step :
  let bundle := {| FsProviderDisposables := [FsProviderHandle "http"; FsProviderHandle "https"] |} in
  let initialised := initializeShimServices true 7%nat (Example.start Example.nothing ∅) in
  let result := dispose Example.outside bundle initialised.2 in
  result.1 = Returned tt
  /\ calls result.2
     = map Dispose (disposal_order [Subscription 0; Subscription 1] bundle)
  /\ fsProvider result.2 = ∅.
Proof. cbv zeta. repeat split; reflexivity. Qed.

(** ** The directory-creation protocol *)

Ltac unfold_walk_body := unfold walk_body, try_catch, bind, call.
Ltac unfold_walk := cbn [walk].
Ltac unfold_mkdirp := unfold mkdirp, bind.
Ltac unfold_create_directories :=
  cbn [create_directories]; unfold bind, try_catch, call.
Ltac unfold_missing := cbn [missing]; unfold call.

Section Mkdirp.

Context {World : Type}.
Variable outside : Outside World.
Variable toString : bool -> URI -> string.
Variable fsPath : URI -> string.

Abbreviation walk := (walk outside toString fsPath).
Abbreviation walk_body := (walk_body outside toString fsPath).
Abbreviation mkdirp := (mkdirp outside toString fsPath).
Abbreviation create_directories := (create_directories outside).
Abbreviation missing := (missing outside).

Implicit Types (s : State World) (provider : Provider) (toCreate : list URI).

Lemma walk_at_root fuel provider directory toCreate s :
  walk fuel provider "/" directory toCreate s = (Returned toCreate, s).
Proof. by destruct fuel. Qed.

Lemma walk_unfold fuel provider pat directory toCreate s :
  pat <> "/" ->
  walk (S fuel) provider pat directory toCreate s
  = (let* next := walk_body provider directory toCreate in
     match next with
     | None => ret toCreate
     | Some (toCreate', directory') => walk fuel provider pat directory' toCreate'
     end) s.
Proof.
  intros Hpat. unfold_walk.
  destruct (String.eqb_spec pat "/") as [|_]; [done|reflexivity].
Qed.

Lemma walk_no_fuel provider pat directory toCreate s :
  pat <> "/" -> walk 0 provider pat directory toCreate s = (OutOfFuel, s).
Proof.
  intros Hpat. cbn. by destruct (String.eqb_spec pat "/").
Qed.

(** The three ways through the body of the loop. *)
Lemma walk_body_directory provider directory toCreate s st w :
  provider_stat outside provider directory (world s) = (inr st, w) ->
  Z.land (type st) FileType.Directory <> 0 ->
  walk_body provider directory toCreate s
  = (Returned None, after_stat s provider directory w).
Proof.
  intros Hst Hdir. unfold_walk_body. rewrite Hst. cbn.
  destruct (Z.eqb_spec (Z.land (type st) FileType.Directory) 0); [done|reflexivity].
Qed.

Lemma walk_body_not_a_directory provider directory toCreate s st w :
  provider_stat outside provider directory (world s) = (inr st, w) ->
  Z.land (type st) FileType.Directory = 0 ->
  walk_body provider directory toCreate s
  = (Thrown (FileSystemError.create toString FileSystemError.FileExists
               (Message (not_a_directory_message toString fsPath directory))),
     after_stat s provider directory w).
Proof.
  intros Hst Hdir. unfold_walk_body. rewrite Hst. cbn.
  rewrite Hdir. cbn. by rewrite not_recognised_create.
Qed.

Lemma walk_body_missing provider directory toCreate s err w pushed directory' :
  provider_stat outside provider directory (world s) = (inl err, w) ->
  not_recognised FileSystemProviderErrorCode.FileNotFound err = false ->
  Uri.with_path directory (path directory +:+ "/") = inr pushed ->
  dirname directory = inr directory' ->
  walk_body provider directory toCreate s
  = (Returned (Some (toCreate ++ [pushed], directory')), after_stat s provider directory w).
Proof.
  intros Hst Herr Hpush Hdir. unfold_walk_body.
  rewrite Hst. cbn. rewrite Herr, Hpush. cbn. by rewrite Hdir.
Qed.

Lemma walk_body_fatal provider directory toCreate s err w :
  provider_stat outside provider directory (world s) = (inl err, w) ->
  not_recognised FileSystemProviderErrorCode.FileNotFound err = true ->
  walk_body provider directory toCreate s
  = (Thrown err, after_stat s provider directory w).
Proof.
  intros Hst Herr. unfold_walk_body.
  rewrite Hst. cbn. by rewrite Herr.
Qed.

(** What [missing] says, one ancestor at a time. *)
Lemma missing_S k provider directory s entries top s' :
  missing (S k) provider directory s = Some (entries, top, s') ->
  exists err w pushed directory' rest,
    provider_stat outside provider directory (world s) = (inl err, w)
    /\ not_recognised FileSystemProviderErrorCode.FileNotFound err = false
    /\ Uri.with_path directory (path directory +:+ "/") = inr pushed
    /\ dirname directory = inr directory'
    /\ entries = pushed :: rest
    /\ missing k provider directory' (after_stat s provider directory w)
       = Some (rest, top, s').
Proof.
  unfold_missing.
  destruct (provider_stat outside provider directory (world s)) as [[err|st] w] eqn:Hst;
    [|done].
  destruct (not_recognised _ err) eqn:Herr; [done|].
  destruct (Uri.with_path directory _) as [|pushed] eqn:Hpush; [done|].
  destruct (dirname directory) as [|directory'] eqn:Hdir; [done|].
  fold (after_stat s provider directory w).
  destruct (missing k provider directory' _) as [[[rest top'] s'']|] eqn:Hrest; [|done].
  intros [= <- <- <-]. by exists err, w, pushed, directory', rest.
Qed.

(** While the ancestors are missing the loop goes on, recording them. *)
Lemma walk_missing k fuel provider pat directory toCreate s entries top s' :
  pat <> "/" ->
  missing k provider directory s = Some (entries, top, s') ->
  walk (k + fuel) provider pat directory toCreate s
  = walk fuel provider pat top (toCreate ++ entries) s'.
Proof.
  intros Hpat. revert directory toCreate s entries.
  induction k as [|k IH]; intros directory toCreate s entries Hk.
  - injection Hk as <- <- <-. by rewrite app_nil_r.
  - apply missing_S in Hk
      as (err & w & pushed & directory' & rest & Hst & Herr & Hpush & Hdir & -> & Hk).
    replace (S k + fuel)%nat with (S (k + fuel)) by lia.
    rewrite walk_unfold by done. unfold bind.
    rewrite (walk_body_missing _ _ _ _ _ _ _ _ Hst Herr Hpush Hdir).
    rewrite (IH _ _ _ _ Hk). by rewrite <- app_assoc.
Qed.

(** The calls made for missing ancestors are calls of [stat], one for each
    ancestor in turn; the registrations are not touched. *)
Lemma missing_calls k provider directory s entries top s' :
  missing k provider directory s = Some (entries, top, s') ->
  exists visited,
    length visited = k
    /\ calls s' = calls s ++ map (ProviderStat provider) visited
    /\ fsProvider s' = fsProvider s.
Proof.
  revert directory s entries. induction k as [|k IH]; intros directory s entries Hk.
  - injection Hk as <- <- <-. exists []. by rewrite app_nil_r.
  - apply missing_S in Hk
      as (err & w & pushed & directory' & rest & Hst & Herr & Hpush & Hdir & -> & Hk).
    destruct (IH _ _ _ Hk) as (visited & Hlen & Hcalls & Hfs).
    exists (directory :: visited). cbn. rewrite Hcalls, Hfs. cbn.
    by rewrite <- app_assoc, Hlen.
Qed.

(** The entries are recorded bottom-up: the entry at index [i] is the
    ancestor [i] levels above the first directory, with a slash appended to
    its path; the directory reached is [k] levels above. *)
Lemma missing_entries k provider directory s entries top s' :
  missing k provider directory s = Some (entries, top, s') ->
  length entries = k
  /\ ancestor k directory = inr top
  /\ forall i entry, entries !! i = Some entry ->
       exists a, ancestor i directory = inr a
                 /\ Uri.with_path a (path a +:+ "/") = inr entry.
Proof.
  revert directory s entries. induction k as [|k IH]; intros directory s entries Hk.
  - injection Hk as <- <- <-. done.
  - apply missing_S in Hk
      as (err & w & pushed & directory' & rest & Hst & Herr & Hpush & Hdir & -> & Hk).
    destruct (IH _ _ _ Hk) as (Hlen & Htop & Hentries).
    split; [by rewrite <- Hlen|]. split; [cbn; by rewrite Hdir|].
    intros [|i] entry; cbn.
    + intros [= <-]. by exists directory.
    + intros Hi. rewrite Hdir. by apply Hentries.
Qed.

(** As long as ancestors are reported missing the loop has not returned:
    with [k] of them missing, [k] rounds of fuel are used up. *)
Lemma walk_runs_while_ancestors_are_missing k provider pat directory s entries top s' :
  pat <> "/" ->
  missing k provider directory s = Some (entries, top, s') ->
  walk k provider pat directory [] s = (OutOfFuel, s').
Proof.
  intros Hpat Hk. replace k with (k + 0)%nat at 1 by lia.
  rewrite (walk_missing _ _ _ _ _ _ _ _ _ _ Hpat Hk). by apply walk_no_fuel.
Qed.

(** At an ancestor whose [stat] has the [Directory] bit the loop is left
    with what has been recorded, and [mkdirp] goes on to create it. *)
Lemma walk_stops_at_directory k fuel provider pat directory s entries top s' st w :
  pat <> "/" ->
  missing k provider directory s = Some (entries, top, s') ->
  provider_stat outside provider top (world s') = (inr st, w) ->
  Z.land (type st) FileType.Directory <> 0 ->
  walk (k + S fuel) provider pat directory [] s
  = (Returned entries, after_stat s' provider top w).
Proof.
  intros Hpat Hk Hst Hdir.
  rewrite (walk_missing _ _ _ _ _ _ _ _ _ _ Hpat Hk), walk_unfold by done.
  unfold bind. by rewrite (walk_body_directory _ _ _ _ _ _ Hst Hdir).
Qed.

Lemma mkdirp_after_walk fuel provider uri parent s entries s1 :
  dirname uri = inr parent ->
  walk fuel provider (path uri) parent [] s = (Returned entries, s1) ->
  mkdirp fuel provider uri s = create_directories provider (rev entries) s1.
Proof.
  intros Hparent Hwalk. unfold_mkdirp. rewrite Hparent. cbn.
  by rewrite Hwalk.
Qed.

(** One round of the creation loop. *)
Lemma create_directories_created provider entry rest s w :
  provider_createDirectory outside provider entry (world s) = (inr tt, w) ->
  create_directories provider (entry :: rest) s
  = create_directories provider rest (after_create s provider entry w).
Proof.
  intros Hc. unfold_create_directories.
  by rewrite Hc.
Qed.

Lemma create_directories_tolerated provider entry rest s e w :
  provider_createDirectory outside provider entry (world s) = (inl e, w) ->
  not_recognised FileSystemProviderErrorCode.FileExists e = false ->
  create_directories provider (entry :: rest) s
  = create_directories provider rest (after_create s provider entry w).
Proof.
  intros Hc He. unfold_create_directories.
  rewrite Hc. cbn. by rewrite He.
Qed.

Lemma create_directories_aborted provider entry rest s e w :
  provider_createDirectory outside provider entry (world s) = (inl e, w) ->
  not_recognised FileSystemProviderErrorCode.FileExists e = true ->
  create_directories provider (entry :: rest) s
  = (Thrown e, after_create s provider entry w).
Proof.
  intros Hc He. unfold_create_directories.
  rewrite Hc. cbn. by rewrite He.
Qed.

(** The creation loop takes the entries one by one, in the order given: it
    either creates them all and returns, or stops at the first creation that
    throws an error not taken for [FileExists], with that error. *)
Lemma create_directories_in_order provider (entries : list URI) s :
  let result := create_directories provider entries s in
  (result.1 = Returned tt
   /\ calls result.2 = calls s ++ map (ProviderCreateDirectory provider) entries)
  \/ (exists e before entry after,
        entries = before ++ entry :: after
        /\ result.1 = Thrown e
        /\ not_recognised FileSystemProviderErrorCode.FileExists e = true
        /\ calls result.2
           = calls s ++ map (ProviderCreateDirectory provider) (before ++ [entry])
        /\ exists w, provider_createDirectory outside provider entry w
                     = (inl e, world result.2)).
Proof.
  cbv zeta. revert s. induction entries as [|entry rest IH]; intros s.
  - left. cbn. by rewrite app_nil_r.
  - assert (Hgo : forall w,
      create_directories provider (entry :: rest) s
      = create_directories provider rest (after_create s provider entry w) ->
      ((create_directories provider (entry :: rest) s).1 = Returned tt
       /\ calls (create_directories provider (entry :: rest) s).2
          = calls s ++ map (ProviderCreateDirectory provider) (entry :: rest))
      \/ (exists e before entry0 after,
            entry :: rest = before ++ entry0 :: after
            /\ (create_directories provider (entry :: rest) s).1 = Thrown e
            /\ not_recognised FileSystemProviderErrorCode.FileExists e = true
            /\ calls (create_directories provider (entry :: rest) s).2
               = calls s ++ map (ProviderCreateDirectory provider) (before ++ [entry0])
            /\ exists w, provider_createDirectory outside provider entry0 w
                         = (inl e, world (create_directories provider (entry :: rest) s).2))).
    { intros w ->.
      destruct (IH (after_create s provider entry w))
        as [[Hr Hc] | (e & before & entry0 & after & -> & Hr & He & Hc & Hw)].
      - left. split; [done|]. rewrite Hc. cbn. by rewrite <- app_assoc.
      - right. exists e, (entry :: before), entry0, after.
        repeat split; try done. rewrite Hc. cbn. by rewrite <- app_assoc. }
    destruct (provider_createDirectory outside provider entry (world s))
      as [[e|[]] w] eqn:Hc.
    + destruct (not_recognised FileSystemProviderErrorCode.FileExists e) eqn:He.
      * right. exists e, [], entry, rest.
        rewrite (create_directories_aborted _ _ _ _ _ _ Hc He). cbn. eauto 6.
      * apply (Hgo w), (create_directories_tolerated _ _ _ _ _ _ Hc He).
    + apply (Hgo w), (create_directories_created _ _ _ _ _ Hc).
Qed.

(** C10.  The test on an ancestor is bitwise: when the ancestors below are
    missing and the [stat] of an ancestor reports [Directory] together with
    the [SymbolicLink] bit, the ancestor counts as a directory.  The walk
    stops there and returns what it has recorded, no [FileExists] is thrown,
    and [mkdirp] goes on with the creation of the recorded entries. *)
Theorem walk_stops_at_symbolic_link_to_directory
    k fuel provider (uri parent : URI) s entries top s' st w :
  path uri <> "/" ->
  dirname uri = inr parent ->
  missing k provider parent s = Some (entries, top, s') ->
  provider_stat outside provider top (world s') = (inr st, w) ->
  type st = Z.lor FileType.Directory FileType.SymbolicLink ->
  Z.land (type st) FileType.Directory = FileType.Directory
  /\ walk (k + S fuel) provider (path uri) parent [] s
     = (Returned entries, after_stat s' provider top w)
  /\ mkdirp (k + S fuel) provider uri s
     = create_directories provider (rev entries) (after_stat s' provider top w).
Proof.
  intros Hpat Hparent Hk Hst Htype.
  assert (Hbit : Z.land (type st) FileType.Directory = FileType.Directory)
    by (by rewrite Htype).
  assert (Hwalk : walk (k + S fuel) provider (path uri) parent [] s
                  = (Returned entries, after_stat s' provider top w)).
  { apply (walk_stops_at_directory _ _ _ _ _ _ _ _ _ st); try done.
    by rewrite Hbit. }
  split; [done|]. split; [done|].
  by apply (mkdirp_after_walk _ _ _ parent).
Qed.

(** C7.  When the ancestors below are missing and the [stat] of an ancestor
    succeeds with a type that lacks the [Directory] bit, [mkdirp] throws the
    [FileSystemError] made by [FileSystemError.FileExists], whose [code] is
    [FileExists] and not [FileNotADirectory], right after that [stat]; it
    has called [createDirectory] on nothing. *)
Theorem mkdirp_fails_at_ancestor_that_is_not_a_directory
    k fuel provider (uri parent : URI) s entries top s' st w :
  path uri <> "/" ->
  dirname uri = inr parent ->
  missing k provider parent s = Some (entries, top, s') ->
  provider_stat outside provider top (world s') = (inr st, w) ->
  Z.land (type st) FileType.Directory = 0 ->
  let e := FileSystemError.create toString FileSystemError.FileExists
             (Message (not_a_directory_message toString fsPath top)) in
  let result := mkdirp (k + S fuel) provider uri s in
  result = (Thrown e, after_stat s' provider top w)
  /\ err_class e = ClassFileSystemError
  /\ err_code e = Some "FileExists"
  /\ err_code e <> Some "FileNotADirectory"
  /\ err_name e = Some "EntryExists (FileSystemError)"
  /\ (forall p u, In (ProviderCreateDirectory p u) (calls result.2) ->
                  In (ProviderCreateDirectory p u) (calls s)).
Proof.
  intros Hpat Hparent Hk Hst Htype. cbv zeta.
  assert (Hrun : mkdirp (k + S fuel) provider uri s
                 = (Thrown (FileSystemError.create toString FileSystemError.FileExists
                              (Message (not_a_directory_message toString fsPath top))),
                    after_stat s' provider top w)).
  { unfold_mkdirp. rewrite Hparent. cbn.
    rewrite (walk_missing _ _ _ _ _ _ _ _ _ _ Hpat Hk), walk_unfold by done.
    unfold bind. by rewrite (walk_body_not_a_directory _ _ _ _ _ _ Hst Htype). }
  rewrite Hrun. repeat split; try done.
  intros p u. cbn.
  destruct (missing_calls _ _ _ _ _ _ _ Hk) as (visited & _ & -> & _).
  rewrite !in_app_iff, in_map_iff. cbn.
  intros [[H | (d & [=] & _)] | [[=] | []]]. done.
Qed.

(** What the two [catch] blocks of [mkdirp] take for a given code: an error
    whose [code] property is the code, or whose label begins with it. *)
Lemma not_recognised_false code err :
  not_recognised code err = false
  <-> err_code err = Some code
      \/ JsString.split_space_0 (default EmptyString (err_name err)) = Some code.
Proof.
  unfold not_recognised. rewrite andb_false_iff, !negb_false_iff, !bool_decide_eq_true.
  done.
Qed.

(** C6.  When the walk has recorded the missing ancestors (bottom-up: the
    entry at index [i] is for the ancestor [i] levels above the parent of the
    target) and has stopped at a directory, the creation phase calls
    [createDirectory] on the recorded entries in reverse, that is from the
    topmost to the bottommost, each once.  A creation that throws an error
    taken for [FileExists] counts as done and the loop goes on; a creation
    that throws any other error ends [mkdirp] with that error, the entries
    after it untouched.  An error is taken for [FileExists] when its [code]
    property or the first word of its label is [EntryExists]: so is the
    error [FileSystemError.FileExists] makes, and so are not the errors of
    the other five constructors and a plain [Error]. *)
Theorem creation_phase_creates_top_down
    k fuel provider (uri parent : URI) s entries top s' st w :
  path uri <> "/" ->
  dirname uri = inr parent ->
  missing k provider parent s = Some (entries, top, s') ->
  provider_stat outside provider top (world s') = (inr st, w) ->
  Z.land (type st) FileType.Directory <> 0 ->
  let s1 := after_stat s' provider top w in
  let result := mkdirp (k + S fuel) provider uri s in
  (forall i entry, entries !! i = Some entry ->
     exists a, ancestor i parent = inr a
               /\ Uri.with_path a (path a +:+ "/") = inr entry)
  /\ result = create_directories provider (rev entries) s1
  /\ ((result.1 = Returned tt
       /\ calls result.2
          = calls s1 ++ map (ProviderCreateDirectory provider) (rev entries))
      \/ (exists e before entry after,
            rev entries = before ++ entry :: after
            /\ result.1 = Thrown e
            /\ not_recognised FileSystemProviderErrorCode.FileExists e = true
            /\ calls result.2
               = calls s1 ++ map (ProviderCreateDirectory provider) (before ++ [entry])
            /\ exists w', provider_createDirectory outside provider entry w'
                          = (inl e, world result.2)))
  /\ (forall entry rest s2 e w2,
        provider_createDirectory outside provider entry (world s2) = (inl e, w2) ->
        not_recognised FileSystemProviderErrorCode.FileExists e = false ->
        create_directories provider (entry :: rest) s2
        = create_directories provider rest (after_create s2 provider entry w2))
  /\ (forall m, not_recognised FileSystemProviderErrorCode.FileExists
                  (FileSystemError.create toString FileSystemError.FileExists m) = false)
  /\ (forall entry rest s2 e w2,
        provider_createDirectory outside provider entry (world s2) = (inl e, w2) ->
        not_recognised FileSystemProviderErrorCode.FileExists e = true ->
        create_directories provider (entry :: rest) s2
        = (Thrown e, after_create s2 provider entry w2))
  /\ (forall entry rest s2 w2,
        provider_createDirectory outside provider entry (world s2) = (inr tt, w2) ->
        create_directories provider (entry :: rest) s2
        = create_directories provider rest (after_create s2 provider entry w2))
  /\ (forall s2, create_directories provider [] s2 = (Returned tt, s2))
  /\ (forall e,
        not_recognised FileSystemProviderErrorCode.FileExists e = false
        <-> err_code e = Some "EntryExists"
            \/ JsString.split_space_0 (default EmptyString (err_name e))
               = Some "EntryExists")
  /\ (forall t m,
        not_recognised FileSystemProviderErrorCode.FileExists
          (FileSystemError.create toString t m) = false
        <-> t = FileSystemError.FileExists)
  /\ (forall message,
        not_recognised FileSystemProviderErrorCode.FileExists (new_Error message) = true).
Proof.
  intros Hpat Hparent Hk Hst Hdir. cbv zeta.
  assert (Hrun : mkdirp (k + S fuel) provider uri s
                 = create_directories provider (rev entries) (after_stat s' provider top w)).
  { apply (mkdirp_after_walk _ _ _ parent); [done|].
    by apply (walk_stops_at_directory _ _ _ _ _ _ _ _ _ st). }
  split; [apply (missing_entries _ _ _ _ _ _ _ Hk)|].
  split; [done|]. rewrite Hrun.
  split; [apply create_directories_in_order|].
  split; [intros entry rest s2 e w2 Hc He; by apply (create_directories_tolerated _ _ _ _ e)|].
  split; [intros m; by rewrite not_recognised_create|].
  split; [intros entry rest s2 e w2 Hc He; by apply create_directories_aborted|].
  split; [intros entry rest s2 w2 Hc; by apply create_directories_created|].
  split; [done|].
  split; [intros e; apply not_recognised_false|].
  split; [|done].
  intros t m. rewrite not_recognised_create. by destruct t.
Qed.

End Mkdirp.

Lemma walk_stops_at_symbolic_link_to_directory_witness :
  let s := Example.start (Example.with_entries [("/a", 66)]) ∅ in
  walk Example.outside Example.toString Example.fsPath 3 0%nat "/a/b/c/file.txt"
    Example.parent_of_target [] s
  = (Returned [Example.uri "file" "/a/b/c/"; Example.uri "file" "/a/b/"],
     {| world := world s;
        calls := map (ProviderStat 0%nat)
                   [Example.uri "file" "/a/b/c"; Example.uri "file" "/a/b";
                    Example.uri "file" "/a"];
        fsProvider := ∅ |}).
Proof.
  cbv zeta.
  edestruct (walk_stops_at_symbolic_link_to_directory Example.outside Example.toString
               Example.fsPath 2 0 0%nat Example.target Example.parent_of_target
               (Example.start (Example.with_entries [("/a", 66)]) ∅))
    as (_ & Hwalk & _);
    [discriminate | reflexivity | reflexivity | reflexivity | reflexivity |].
  exact Hwalk.
Defined.

Lemma mkdirp_fails_at_ancestor_that_is_not_a_directory_witness :
  let s := Example.start (Example.with_entries [("/a", FileType.File)]) ∅ in
  mkdirp Example.outside Example.toString Example.fsPath 3 0%nat Example.target s
  = (Thrown {| err_class := ClassFileSystemError;
               err_name := Some "EntryExists (FileSystemError)";
               err_message :=
                 "Unable to create folder '/a' that already exists but is not a directory";
               err_code := Some "FileExists" |},
     {| world := world s;
        calls := map (ProviderStat 0%nat)
                   [Example.uri "file" "/a/b/c"; Example.uri "file" "/a/b";
                    Example.uri "file" "/a"];
        fsProvider := ∅ |}).
Proof.
  cbv zeta.
  edestruct (mkdirp_fails_at_ancestor_that_is_not_a_directory Example.outside
               Example.toString Example.fsPath 2 0 0%nat Example.target
               Example.parent_of_target
               (Example.start (Example.with_entries [("/a", FileType.File)]) ∅))
    as (Hrun & _);
    [discriminate | reflexivity | reflexivity | reflexivity | reflexivity |].
  exact Hrun.
Defined.

Lemma creation_phase_creates_top_down_witness :
  let s := Example.start (Example.with_entries [("/a", FileType.Directory)]) ∅ in
  let result := mkdirp Example.outside Example.toString Example.fsPath 3 0%nat Example.target s in
  result.1 = Returned tt
  /\ calls result.2
     = map (ProviderStat 0%nat)
         [Example.uri "file" "/a/b/c"; Example.uri "file" "/a/b"; Example.uri "file" "/a"]
       ++ map (ProviderCreateDirectory 0%nat)
            [Example.uri "file" "/a/b/"; Example.uri "file" "/a/b/c/"].
Proof.
  cbv zeta.
  edestruct (creation_phase_creates_top_down Example.outside Example.toString
               Example.fsPath 2 0 0%nat Example.target Example.parent_of_target
               (Example.start (Example.with_entries [("/a", FileType.Directory)]) ∅))
    as (_ & Hrun & _);
    [discriminate | reflexivity | reflexivity | reflexivity | discriminate |].
  split.
  - exact (eq_trans (f_equal fst Hrun) eq_refl).
  - exact (eq_trans (f_equal (fun r => calls r.2) Hrun) eq_refl).
Defined.

(** A creation that loses the race: the backend already has [/a/b/c] when
    the creation phase gets to it (the walk was told it is missing), the
    [FileExists] error is swallowed and [mkdirp] returns. *)
Example creation_tolerates_FileExists :
  let s := Example.start (Example.with_entries [("/a/b/c", 2); ("/a", 2)]) ∅ in
  let result :=
    create_directories Example.outside 0%nat
      (rev [Example.uri "file" "/a/b/c/"; Example.uri "file" "/a/b/"]) s in
  provider_createDirectory Example.outside 0%nat (Example.uri "file" "/a/b/c/")
    (world (create_directories Example.outside 0%nat [Example.uri "file" "/a/b/"] s).2)
  = (inl (FileSystemError.create Example.toString FileSystemError.FileExists
            (OfUri (Example.uri "file" "/a/b/c/"))),
     world result.2)
  /\ result.1 = Returned tt
  /\ calls result.2
     = map (ProviderCreateDirectory 0%nat)
         [Example.uri "file" "/a/b/"; Example.uri "file" "/a/b/c/"].
Proof. cbv zeta. repeat split; reflexivity. Qed.

(** A creation that is refused: the backend throws [NoPermissions] for
    [/a/b/], the first directory to create; [mkdirp] throws that error and
    [/a/b/c/] is not attempted. *)
Example creation_stops_at_another_error :
  let s := Example.start (Example.with_entries [("/a", FileType.Directory)]) ∅ in
  let result :=
    mkdirp ExampleDisk.guarded Example.toString Example.fsPath 3 0%nat Example.target s in
  result.1 = Thrown (FileSystemError.create Example.toString FileSystemError.NoPermissions
                       (OfUri (Example.uri "file" "/a/b/")))
  /\ calls result.2
     = map (ProviderStat 0%nat)
         [Example.uri "file" "/a/b/c"; Example.uri "file" "/a/b"; Example.uri "file" "/a"]
       ++ [ProviderCreateDirectory 0%nat (Example.uri "file" "/a/b/")]
  /\ world result.2 = world s.
Proof. cbv zeta. repeat split; reflexivity. Qed.

(** Where the type of the claim comes from: [toType] of a link to a
    directory, and the bit the walk tests. *)
Example toType_of_link_to_directory :
  toType false true (Some false) = Z.lor FileType.Directory FileType.SymbolicLink
  /\ toType false true (Some false) = 66
  /\ Z.land 66 FileType.Directory = 2
  /\ toType true false None = FileType.File
  /\ Z.land FileType.File FileType.Directory = 0.
Proof. repeat split. Qed.

(** ** The walk does not notice the root

    The condition of the loop, [pat != '/'], is about the path of the target
    and never changes.  Above the topmost ancestor [dirname] returns the
    empty path again and again. *)

Lemma walk_at_missing_root fuel toCreate (s : State Example.World) :
  Example.entries (world s) = [] ->
  walk Example.outside Example.toString Example.fsPath (S fuel) 0%nat "/a/b"
    (Example.uri "memfs" EmptyString) toCreate s
  = walk Example.outside Example.toString Example.fsPath fuel 0%nat "/a/b"
      (Example.uri "memfs" EmptyString) (toCreate ++ [Example.uri "memfs" "/"])
      (after_stat s 0%nat (Example.uri "memfs" EmptyString) (world s)).
Proof.
  intros Hempty. rewrite walk_unfold by discriminate. unfold bind.
  rewrite (walk_body_missing _ _ _ _ _ _ _
             (FileSystemError.create Example.toString FileSystemError.FileNotFound
                (OfUri (Example.uri "memfs" EmptyString)))
             (world s) (Example.uri "memfs" "/") (Example.uri "memfs" EmptyString));
    try reflexivity.
  cbn. unfold Example.mem_stat. by rewrite Hempty.
Qed.

Lemma walk_above_root_runs_out_of_fuel fuel toCreate (s : State Example.World) :
  Example.entries (world s) = [] ->
  let result :=
    walk Example.outside Example.toString Example.fsPath fuel 0%nat "/a/b"
      (Example.uri "memfs" EmptyString) toCreate s in
  result.1 = OutOfFuel
  /\ calls result.2
     = calls s ++ repeat (ProviderStat 0%nat (Example.uri "memfs" EmptyString)) fuel.
Proof.
  cbv zeta. revert toCreate s. induction fuel as [|fuel IH]; intros toCreate s Hempty.
  - rewrite walk_no_fuel by discriminate. cbn. by rewrite app_nil_r.
  - rewrite (walk_at_missing_root _ _ _ Hempty).
    destruct (IH (toCreate ++ [Example.uri "memfs" "/"])
                (after_stat s 0%nat (Example.uri "memfs" EmptyString) (world s)) Hempty)
      as [Hr Hc].
    split; [done|]. rewrite Hc. cbn. by rewrite <- app_assoc.
Qed.

(** C5 fails on the code.  The backend has no entry at all, so every [stat]
    throws [FileNotFound]; the target is [memfs:/a/b].  Whatever the fuel,
    the walk is still running when it is used up: after the [stat] of [/a]
    the directory is the one with the empty path, which is its own
    [dirname], and the loop calls [stat] on it for ever. *)
Theorem mkdirp_walk_does_not_stop_at_the_root (fuel : nat) :
  let result :=
    mkdirp Example.outside Example.toString Example.fsPath fuel 0%nat
      (Example.uri "memfs" "/a/b") (Example.start Example.nothing ∅) in
  result.1 = OutOfFuel
  /\ calls result.2
     = match fuel with
       | O => []
       | S n => ProviderStat 0%nat (Example.uri "memfs" "/a")
                :: repeat (ProviderStat 0%nat (Example.uri "memfs" EmptyString)) n
       end
  /\ length (calls result.2) = fuel
  /\ dirname (Example.uri "memfs" EmptyString) = inr (Example.uri "memfs" EmptyString).
Proof.
  cbv zeta. destruct fuel as [|fuel]; [by repeat split|].
  assert (Hstep :
    mkdirp Example.outside Example.toString Example.fsPath (S fuel) 0%nat
      (Example.uri "memfs" "/a/b") (Example.start Example.nothing ∅)
    = (let* toCreate :=
         walk Example.outside Example.toString Example.fsPath fuel 0%nat "/a/b"
           (Example.uri "memfs" EmptyString) [Example.uri "memfs" "/a/"] in
       create_directories Example.outside 0%nat (rev toCreate))
        (after_stat (Example.start Example.nothing ∅) 0%nat
           (Example.uri "memfs" "/a") Example.nothing)).
  { unfold mkdirp, bind.
    change (lift (dirname (Example.uri "memfs" "/a/b")) (Example.start Example.nothing ∅))
      with (@Returned URI (Example.uri "memfs" "/a"), Example.start Example.nothing ∅).
    cbv beta iota. change (path (Example.uri "memfs" "/a/b")) with "/a/b".
    change (S fuel) with (1 + fuel)%nat.
    by rewrite (walk_missing Example.outside Example.toString Example.fsPath 1 fuel 0%nat
                  "/a/b" (Example.uri "memfs" "/a") [] (Example.start Example.nothing ∅)
                  [Example.uri "memfs" "/a/"] (Example.uri "memfs" EmptyString)
                  (after_stat (Example.start Example.nothing ∅) 0%nat
                     (Example.uri "memfs" "/a") Example.nothing)). }
  rewrite Hstep. unfold bind.
  destruct (walk_above_root_runs_out_of_fuel fuel [Example.uri "memfs" "/a/"]
              (after_stat (Example.start Example.nothing ∅) 0%nat
                 (Example.uri "memfs" "/a") Example.nothing) eq_refl) as [Hr Hc].
  destruct (walk _ _ _ fuel _ _ _ _ _) as [r s'] eqn:E. cbn in Hr, Hc. subst r.
  cbn [fst snd]. rewrite Hc.
  split; [done|]. split; [done|]. split; [|done].
  cbn [length]. by rewrite repeat_length.
Qed.

(** With the scheme [file] the same walk ends, but not at the root either:
    there [dirname] yields the path [/], whose [stat] is reported missing
    too, and recording it builds a URI with the path [//], which the URI
    constructor rejects. *)
Remark mkdirp_file_scheme_fails_above_the_root :
  let result :=
    mkdirp Example.outside Example.toString Example.fsPath 5 0%nat
      (Example.uri "file" "/a/b") (Example.start Example.nothing ∅) in
  (exists e, result.1 = Thrown e /\ err_class e = ClassError)
  /\ calls result.2
     = [ProviderStat 0%nat (Example.uri "file" "/a");
        ProviderStat 0%nat (Example.uri "file" "/")].
Proof. cbv zeta. split; [eexists; split; reflexivity | reflexivity]. Qed.

(** * Further properties of the shims *)

(** ** Strings: splitting a label, cutting the last segment of a path *)

Section Strings.

Implicit Types (s t : string) (c sep : ascii).

Lemma split_not_nil sep s : JsString.split sep s <> [].
Proof.
  destruct s as [|c s]; cbn; [done|].
  destruct (Ascii.eqb c sep); [done|]. by destruct (JsString.split sep s).
Qed.

Lemma concat_cons sep_string t (l : list string) :
  l <> [] -> String.concat sep_string (t :: l) = t +:+ sep_string +:+ String.concat sep_string l.
Proof. by destruct l. Qed.

Lemma append_String c s t : String c s +:+ t = String c (s +:+ t).
Proof. reflexivity. Qed.

Lemma append_assoc s t u : (s +:+ t) +:+ u = s +:+ (t +:+ u).
Proof. induction s as [|c s IH]; [done|]. change (String c ((s +:+ t) +:+ u) = String c (s +:+ (t +:+ u))). by f_equal. Qed.

Lemma append_empty_r s : s +:+ EmptyString = s.
Proof. induction s as [|c s IH]; [done|]. change (String c (s +:+ EmptyString) = String c s). by f_equal. Qed.

Lemma char_occurs_append c s t :
  char_occurs c (s +:+ t) = char_occurs c s || char_occurs c t.
Proof.
  induction s as [|d s IH]; [done|].
  change (Ascii.eqb d c || char_occurs c (s +:+ t)
          = Ascii.eqb d c || char_occurs c s || char_occurs c t).
  rewrite IH. by destruct (Ascii.eqb d c).
Qed.

(** [s.split(sep)] loses nothing: joining the pieces with the separator
    gives [s] back, and no piece contains the separator. *)
Lemma split_join sep s :
  String.concat (String sep EmptyString) (JsString.split sep s) = s
  /\ Forall (fun piece => char_occurs sep piece = false) (JsString.split sep s).
Proof.
  induction s as [|c s [IHjoin IHfree]]; [by split; [|repeat constructor]|].
  cbn [JsString.split]. destruct (Ascii.eqb c sep) eqn:Hc.
  - apply Ascii.eqb_eq in Hc as ->. split.
    + rewrite concat_cons by apply split_not_nil. by rewrite IHjoin.
    + by constructor.
  - destruct (JsString.split sep s) as [|piece pieces] eqn:Hs;
      [by destruct (split_not_nil sep s)|].
    split.
    + rewrite <- IHjoin. destruct pieces; reflexivity.
    + inversion IHfree as [|? ? Hpiece Hpieces]; subst.
      constructor; [|done]. cbn. by rewrite Hc.
Qed.

Lemma split_first_word t rest :
  char_occurs " " t = false ->
  JsString.split_space_0 (t +:+ " " +:+ rest) = Some t.
Proof.
  unfold JsString.split_space_0. induction t as [|c t IH]; [done|].
  cbn [char_occurs]. intros [Hc Ht]%orb_false_elim.
  change (String c t +:+ " " +:+ rest) with (String c (t +:+ " " +:+ rest)).
  cbn [JsString.split]. rewrite Hc.
  specialize (IH Ht). by destruct (JsString.split " " (t +:+ " " +:+ rest)); simplify_eq/=.
Qed.

Lemma before_last_slash_none s :
  char_occurs "/" s = false -> JsString.before_last_slash s = None.
Proof.
  induction s as [|c s IH]; cbn; [done|].
  intros [Hc Hs]%orb_false_elim. by rewrite (IH Hs), Hc.
Qed.

Lemma before_last_slash_join dir name :
  char_occurs "/" name = false ->
  JsString.before_last_slash (dir +:+ "/" +:+ name) = Some dir.
Proof.
  intros Hname. induction dir as [|c dir IH].
  - change (EmptyString +:+ "/" +:+ name) with (String "/" name).
    cbn [JsString.before_last_slash]. by rewrite (before_last_slash_none _ Hname).
  - change (String c dir +:+ "/" +:+ name) with (String c (dir +:+ "/" +:+ name)).
    cbn [JsString.before_last_slash]. by rewrite IH.
Qed.

Lemma before_last_slash_some s dir :
  JsString.before_last_slash s = Some dir ->
  exists name, char_occurs "/" name = false /\ s = dir +:+ "/" +:+ name.
Proof.
  revert dir. induction s as [|c s IH]; intros dir; cbn; [done|].
  destruct (JsString.before_last_slash s) as [r|] eqn:Hs.
  - intros [= <-]. destruct (IH r eq_refl) as (name & Hname & ->). by exists name.
  - destruct (Ascii.eqb c "/") eqn:Hc; [|done]. intros [= <-].
    apply Ascii.eqb_eq in Hc as ->. exists s. split; [|done].
    clear IH. induction s as [|d s IH]; cbn in *; [done|].
    destruct (JsString.before_last_slash s); [done|].
    destruct (Ascii.eqb d "/"); [done|]. by apply IH.
Qed.

Lemma replace_last_segment_join dir name :
  char_occurs "/" name = false ->
  JsString.replace_last_segment (dir +:+ "/" +:+ name) = dir.
Proof.
  intros Hname. unfold JsString.replace_last_segment.
  by rewrite (before_last_slash_join _ _ Hname).
Qed.

Lemma replace_last_segment_no_slash s :
  char_occurs "/" s = false -> JsString.replace_last_segment s = s.
Proof.
  intros Hs. unfold JsString.replace_last_segment.
  by rewrite (before_last_slash_none _ Hs).
Qed.

Lemma replace_last_segment_cut s :
  char_occurs "/" s = true ->
  exists name, char_occurs "/" name = false
               /\ s = JsString.replace_last_segment s +:+ "/" +:+ name.
Proof.
  unfold JsString.replace_last_segment.
  intros Hs. destruct (JsString.before_last_slash s) as [dir|] eqn:Hcut.
  - by apply before_last_slash_some.
  - exfalso. revert Hs Hcut. induction s as [|c s IH]; cbn; [done|].
    destruct (JsString.before_last_slash s); [done|].
    destruct (Ascii.eqb c "/"); [done|]. cbn. auto.
Qed.

(** X1.  The cut [replace(/\/[^/]*$/, '')] used by [dirname] and by
    [writeFile] undoes the joining of a directory and a name: it returns the
    directory when the name has no slash, it leaves a string without a slash
    as it is, and whatever it cuts off is one slash and a name without
    slashes. *)
Theorem replace_last_segment_spec s :
  (forall dir name, char_occurs "/" name = false ->
     JsString.replace_last_segment (dir +:+ "/" +:+ name) = dir)
  /\ (char_occurs "/" s = false -> JsString.replace_last_segment s = s)
  /\ (char_occurs "/" s = true ->
        exists name, char_occurs "/" name = false
                     /\ s = JsString.replace_last_segment s +:+ "/" +:+ name).
Proof.
  split; [|split].
  - apply replace_last_segment_join.
  - apply replace_last_segment_no_slash.
  - apply replace_last_segment_cut.
Qed.

End Strings.

Lemma replace_last_segment_spec_witness :
  JsString.replace_last_segment ("/a/b" +:+ "/" +:+ "c.txt") = "/a/b"
  /\ JsString.replace_last_segment "abc" = "abc"
  /\ exists name, char_occurs "/" name = false
                  /\ "/a/b" = JsString.replace_last_segment "/a/b" +:+ "/" +:+ name.
Proof.
  destruct (replace_last_segment_spec "abc") as (H1 & H2 & _).
  destruct (replace_last_segment_spec "/a/b") as (_ & _ & H3).
  split; [apply H1; reflexivity|]. split; [apply H2; reflexivity|].
  apply H3. reflexivity.
Defined.

(** ** The error class, for any code *)

Section ErrorCodes.

Variable toString : bool -> URI -> string.

(** X2.  [new FileSystemError(message, code, terminator)] labels the error
    so that the [catch] blocks of [mkdirp] take it for [code], whatever the
    terminator: for every non-empty code without a space the first word of
    the label is the code.  Without a code the label says [Unknown], and
    with the empty code it is the bare class name, which stands for no
    code. *)
Theorem constructor_label_round_trip (m : MessageOrUri) (code : string)
    (terminator : option FileSystemError.Terminator) :
  (code <> EmptyString -> char_occurs " " code = false ->
     let e := FileSystemError.constructor toString m (Some code) terminator in
     err_name e = Some (code +:+ " (FileSystemError)")
     /\ JsString.split_space_0 (default EmptyString (err_name e)) = Some code
     /\ not_recognised code e = false)
  /\ err_name (FileSystemError.constructor toString m None terminator)
     = Some "Unknown (FileSystemError)"
  /\ err_name (FileSystemError.constructor toString m (Some EmptyString) terminator)
     = Some "FileSystemError"
  /\ err_code (FileSystemError.constructor toString m None None) = Some "Unknown".
Proof.
  split; [|done]. intros Hne Hfree. cbv zeta.
  assert (Hname : err_name (FileSystemError.constructor toString m (Some code) terminator)
                  = Some (code +:+ " (FileSystemError)")).
  { cbn. destruct (String.eqb_spec code EmptyString); [done|reflexivity]. }
  assert (Hword : JsString.split_space_0 (code +:+ " (FileSystemError)") = Some code).
  { by apply (split_first_word code "(FileSystemError)"). }
  split; [exact Hname|]. unfold not_recognised. rewrite Hname. cbn [default id].
  rewrite Hword. split; [done|].
  rewrite (bool_decide_true (Some code = Some code)) by done.
  by rewrite andb_false_r.
Qed.

End ErrorCodes.

Lemma constructor_label_round_trip_witness :
  let e := FileSystemError.constructor Example.toString (Message "x")
             (Some FileSystemProviderErrorCode.FileTooLarge) None in
  err_name e = Some "EntryTooLarge (FileSystemError)"
  /\ JsString.split_space_0 (default EmptyString (err_name e)) = Some "EntryTooLarge"
  /\ not_recognised "EntryTooLarge" e = false.
Proof.
  destruct (constructor_label_round_trip Example.toString (Message "x")
              FileSystemProviderErrorCode.FileTooLarge None) as (H & _).
  apply H; [discriminate | reflexivity].
Defined.

(** ** Well-formed URIs along the walk *)

Section WellFormed.

Implicit Types (p : string) (u : URI).

Lemma prefix_empty p : String.prefix EmptyString p = true.
Proof. by destruct p. Qed.

Lemma startsWith_slash p :
  JsString.startsWith p "/"
  = match p with
    | String c _ => bool_decide (c = "/"%char)
    | EmptyString => false
    end.
Proof.
  destruct p as [|c p]; [done|]. unfold JsString.startsWith. cbn [String.prefix].
  destruct (ascii_dec "/" c) as [<-|Hc].
  - by rewrite prefix_empty.
  - by rewrite bool_decide_false.
Qed.

Lemma startsWith_two_slashes p :
  JsString.startsWith p "//"
  = match p with
    | String c (String d _) => bool_decide (c = "/"%char) && bool_decide (d = "/"%char)
    | _ => false
    end.
Proof.
  destruct p as [|c [|d p]]; unfold JsString.startsWith; cbn [String.prefix]; [done| |].
  - by destruct (ascii_dec "/" c).
  - destruct (ascii_dec "/" c) as [<-|Hc]; [|by rewrite bool_decide_false].
    destruct (ascii_dec "/" d) as [<-|Hd]; [by rewrite prefix_empty|].
    by rewrite (bool_decide_false (d = "/"%char)).
Qed.

(** The validation, read as a condition on the path. *)
Lemma validatePath_None auth p :
  Uri.validatePath auth p = None
  <-> p = EmptyString
      \/ (auth <> EmptyString /\ JsString.startsWith p "/" = true)
      \/ (auth = EmptyString /\ JsString.startsWith p "//" = false).
Proof.
  unfold Uri.validatePath.
  destruct (String.eqb_spec p EmptyString) as [->|Hp]; [by intuition|].
  destruct (String.eqb_spec auth EmptyString) as [->|Ha]; cbn.
  - destruct (JsString.startsWith p "//"); by intuition.
  - destruct (JsString.startsWith p "/"); by intuition.
Qed.

Lemma referenceResolution_cases sch p :
  Uri.referenceResolution sch p = p
  \/ (p = EmptyString /\ Uri.referenceResolution sch p = "/")
  \/ (JsString.startsWith p "/" = false /\ p <> EmptyString
      /\ Uri.referenceResolution sch p = "/" +:+ p).
Proof.
  unfold Uri.referenceResolution.
  destruct (_ || _); [|by left].
  destruct p as [|c p]; cbn [JsString.char0]; [by right; left|].
  destruct (Ascii.eqb_spec c "/") as [->|Hc]; [by left|].
  right; right. rewrite startsWith_slash. by rewrite bool_decide_false.
Qed.

(** Resolving a resolved path changes nothing. *)
Lemma referenceResolution_idempotent sch p :
  Uri.referenceResolution sch (Uri.referenceResolution sch p)
  = Uri.referenceResolution sch p.
Proof.
  unfold Uri.referenceResolution.
  destruct (_ || _); [|done].
  destruct p as [|c p]; cbn [JsString.char0]; [done|].
  destruct (Ascii.eqb_spec c "/") as [->|Hc]; [done|].
  change ("/" +:+ String c p) with (String "/" (String c p)). done.
Qed.

Lemma with_path_inr u p d :
  Uri.with_path u p = inr d ->
  scheme d = scheme u /\ authority d = authority u
  /\ path d = Uri.referenceResolution (scheme u) p
  /\ query d = query u /\ fragment d = fragment u
  /\ well_formed d.
Proof.
  unfold Uri.with_path.
  destruct (Uri.validatePath _ _) eqn:Hv; [done|]. intros [= <-]. cbn.
  repeat split; try done. cbn. apply referenceResolution_idempotent.
Qed.

Lemma with_path_valid u p :
  Uri.validatePath (authority u) (Uri.referenceResolution (scheme u) p) = None ->
  exists d, Uri.with_path u p = inr d.
Proof. unfold Uri.with_path. intros ->. by eexists. Qed.

(** A non-empty path that is its own resolution and gets a slash in front
    cannot be: the two have different lengths. *)
Lemma not_own_extension p : "/" +:+ p <> p.
Proof.
  change ("/" +:+ p) with (String "/" p).
  intros H. apply (f_equal String.length) in H. cbn [String.length] in H. lia.
Qed.

End WellFormed.

Section WellFormedWalk.

Implicit Types (p r : string) (u d : URI).

Lemma referenceResolution_of_prefix sch r rest :
  r <> EmptyString ->
  Uri.referenceResolution sch (r +:+ rest) = r +:+ rest ->
  Uri.referenceResolution sch r = r.
Proof.
  unfold Uri.referenceResolution. destruct (_ || _); [|done].
  destruct r as [|c r]; [done|]. intros _.
  change (String c r +:+ rest) with (String c (r +:+ rest)). cbn [JsString.char0].
  destruct (Ascii.eqb c "/"); [done|]. intros H. by apply not_own_extension in H.
Qed.

Lemma referenceResolution_extend sch p rest :
  p <> EmptyString ->
  Uri.referenceResolution sch p = p ->
  Uri.referenceResolution sch (p +:+ rest) = p +:+ rest.
Proof.
  unfold Uri.referenceResolution. destruct (_ || _); [|done].
  destruct p as [|c p]; [done|]. intros _.
  change (String c p +:+ rest) with (String c (p +:+ rest)). cbn [JsString.char0].
  destruct (Ascii.eqb c "/"); [done|]. intros H. by apply not_own_extension in H.
Qed.

Lemma validatePath_of_prefix auth r rest :
  Uri.validatePath auth (r +:+ rest) = None -> Uri.validatePath auth r = None.
Proof.
  rewrite !validatePath_None.
  destruct r as [|c r]; [by left|]. intros [H|[[Ha H]|[Ha H]]]; [done| |].
  - right; left. split; [done|]. by rewrite startsWith_slash in *.
  - right; right. split; [done|]. rewrite startsWith_two_slashes in *.
    destruct r as [|c2 r]; [done|]. exact H.
Qed.

Lemma validatePath_root auth : Uri.validatePath auth "/" = None.
Proof. unfold Uri.validatePath. by destruct (String.eqb auth EmptyString). Qed.

Lemma dirname_path_valid u :
  well_formed u ->
  Uri.validatePath (authority u)
    (Uri.referenceResolution (scheme u) (JsString.replace_last_segment (path u)))
  = None.
Proof.
  intros [Hvalid Hresolved].
  destruct (char_occurs "/" (path u)) eqn:Hslash.
  - destruct (replace_last_segment_cut _ Hslash) as (name & _ & Hpath).
    set (r := JsString.replace_last_segment (path u)) in *.
    rewrite Hpath in Hvalid, Hresolved.
    destruct (decide (r = EmptyString)) as [Hr|Hr].
    + rewrite Hr. destruct (referenceResolution_cases (scheme u) EmptyString)
        as [->|[[_ ->]|(_ & ? & _)]]; [done|apply validatePath_root|done].
    + rewrite (referenceResolution_of_prefix _ _ _ Hr Hresolved).
      by apply (validatePath_of_prefix _ _ ("/" +:+ name)).
  - by rewrite (replace_last_segment_no_slash _ Hslash), Hresolved.
Qed.

(** X3.  [dirname] never throws on a well-formed URI, and what it returns
    is well-formed again, with the same scheme and authority: the walk of
    [mkdirp] can always step to the next ancestor. *)
Theorem dirname_of_well_formed u :
  well_formed u ->
  exists d, dirname u = inr d
            /\ well_formed d
            /\ scheme d = scheme u
            /\ authority d = authority u
            /\ path d
               = Uri.referenceResolution (scheme u) (JsString.replace_last_segment (path u)).
Proof.
  intros Hwf. unfold dirname.
  destruct (with_path_valid u (JsString.replace_last_segment (path u))) as [d Hd];
    [by apply dirname_path_valid|].
  exists d. split; [done|].
  destruct (with_path_inr _ _ _ Hd) as (? & ? & ? & _ & _ & ?). done.
Qed.

(** X4.  Recording a well-formed directory, that is building the URI with a
    slash appended to its path, throws in one case only: the directory is the
    root [/] of a URI without authority, whose recorded path would be [//].
    In every other case the recorded entry has exactly the path with the
    slash appended. *)
Theorem recording_throws_only_at_the_root d :
  well_formed d ->
  (authority d = EmptyString /\ path d = "/" ->
     exists e, Uri.with_path d (path d +:+ "/") = inl e /\ err_class e = ClassError)
  /\ (~ (authority d = EmptyString /\ path d = "/") ->
        exists pushed, Uri.with_path d (path d +:+ "/") = inr pushed
                       /\ path pushed = path d +:+ "/"
                       /\ well_formed pushed).
Proof.
  intros [Hvalid Hresolved].
  assert (Hres : Uri.referenceResolution (scheme d) (path d +:+ "/") = path d +:+ "/").
  { destruct (decide (path d = EmptyString)) as [Hp|Hp].
    - rewrite Hp. unfold Uri.referenceResolution. by destruct (_ || _).
    - by apply referenceResolution_extend. }
  split.
  - intros [Ha Hp]. unfold Uri.with_path. rewrite Hres, Ha, Hp. by eexists.
  - intros Hroot.
    destruct (with_path_valid d (path d +:+ "/")) as [pushed Hpushed].
    + rewrite Hres. apply validatePath_None. apply validatePath_None in Hvalid.
      destruct (path d) as [|c p] eqn:Hp.
      * destruct (decide (authority d = EmptyString)) as [Ha|Ha]; [by right; right|].
        by right; left.
      * change (String c p +:+ "/") with (String c (p +:+ "/")).
        destruct Hvalid as [|[[Ha H]|[Ha H]]]; [done| |].
        -- right; left. split; [done|]. by rewrite startsWith_slash in *.
        -- right; right. split; [done|]. rewrite startsWith_two_slashes in *.
           destruct p as [|c2 p]; [|exact H].
           change (EmptyString +:+ "/") with "/". cbn [andb].
           destruct (decide (c = "/"%char)) as [->|Hc]; [by destruct Hroot|].
           by rewrite bool_decide_false.
    + exists pushed. split; [done|].
      destruct (with_path_inr _ _ _ Hpushed) as (_ & _ & -> & _ & _ & ?). done.
Qed.

End WellFormedWalk.

Lemma dirname_of_well_formed_witness :
  exists d, dirname Example.target = inr d /\ path d = "/a/b/c".
Proof.
  destruct (dirname_of_well_formed Example.target) as (d & Hd & _ & _ & _ & Hp);
    [by split|].
  exists d. split; [exact Hd|exact Hp].
Defined.

Lemma recording_throws_only_at_the_root_witness :
  (exists e, Uri.with_path (Example.uri "file" "/") "//" = inl e /\ err_class e = ClassError)
  /\ (exists e, Uri.with_path (Example.uri "memfs" "/") "//" = inl e)
  /\ (exists pushed,
        Uri.with_path Example.parent_of_target "/a/b/c/" = inr pushed
        /\ path pushed = "/a/b/c/").
Proof.
  destruct (recording_throws_only_at_the_root (Example.uri "file" "/")) as [H1 _];
    [by split|].
  destruct (recording_throws_only_at_the_root (Example.uri "memfs" "/")) as [H2 _];
    [by split|].
  destruct (recording_throws_only_at_the_root Example.parent_of_target) as [_ H3];
    [by split|].
  split; [by apply H1|]. split.
  - destruct H2 as (e & He & _); [done|]. by exists e.
  - destruct H3 as (pushed & Hp & Hpath & _); [by intros [_ [=]]|]. by exists pushed.
Defined.

(** ** What the router calls, and what it leaves alone *)

Section RouterCalls.

Context {World : Type}.
Variable outside : Outside World.
Variable toString : bool -> URI -> string.
Variable fsPath : URI -> string.
Variable extensionUri : option URI.

Implicit Types (s : State World) (provider : Provider).

Lemma call_state {A} (c : Call) (answer : World -> (JsError + A) * World) s :
  calls (call c answer s).2 = calls s ++ [c]
  /\ fsProvider (call c answer s).2 = fsProvider s.
Proof. unfold call. by destruct (answer (world s)). Qed.

Lemma lift_state {A} (r : JsError + A) s : (lift r s).2 = s.
Proof. by destruct r. Qed.

Lemma walk_body_state provider directory toCreate s :
  let s' := (walk_body outside toString fsPath provider directory toCreate s).2 in
  calls s' = calls s ++ [ProviderStat provider directory]
  /\ fsProvider s' = fsProvider s.
Proof.
  cbv zeta. unfold_walk_body.
  destruct (provider_stat outside provider directory (world s)) as [[err|st] w]; cbn.
  - destruct (not_recognised _ err); cbn; [done|].
    destruct (Uri.with_path directory _); cbn; [done|].
    by destruct (dirname directory).
  - destruct (_ =? 0); cbn; [|done].
    by rewrite not_recognised_create.
Qed.

Lemma walk_state fuel provider pat directory toCreate s :
  let s' := (walk outside toString fsPath fuel provider pat directory toCreate s).2 in
  (exists visited, calls s' = calls s ++ map (ProviderStat provider) visited)
  /\ fsProvider s' = fsProvider s.
Proof.
  cbv zeta. revert directory toCreate s.
  induction fuel as [|fuel IH]; intros directory toCreate s.
  - cbn. destruct (String.eqb pat "/"); cbn; (split; [exists []; by rewrite app_nil_r|done]).
  - destruct (String.eqb_spec pat "/") as [->|Hpat].
    { rewrite walk_at_root. cbn. split; [exists []; by rewrite app_nil_r|done]. }
    rewrite walk_unfold by done. unfold bind.
    destruct (walk_body_state provider directory toCreate s) as [Hc Hf].
    destruct (walk_body outside toString fsPath provider directory toCreate s)
      as [[[[toCreate' directory']|]| |] s1]; cbn in Hc, Hf |- *.
    + destruct (IH directory' toCreate' s1) as [[visited Hv] Hf'].
      split; [|congruence]. exists (directory :: visited).
      rewrite Hv, Hc. cbn. by rewrite <- app_assoc.
    + split; [by exists [directory]|done].
    + split; [by exists [directory]|done].
    + split; [by exists [directory]|done].
Qed.

Lemma create_directories_state provider (entries : list URI) s :
  let s' := (create_directories outside provider entries s).2 in
  (exists created, calls s' = calls s ++ map (ProviderCreateDirectory provider) created)
  /\ fsProvider s' = fsProvider s.
Proof.
  cbv zeta. revert s. induction entries as [|entry rest IH]; intros s.
  - cbn. split; [exists []; by rewrite app_nil_r|done].
  - assert (Hgo : forall w,
      let s' := (create_directories outside provider rest
                   (after_create s provider entry w)).2 in
      (exists created, calls s' = calls s ++ map (ProviderCreateDirectory provider) created)
      /\ fsProvider s' = fsProvider s).
    { intros w. cbv zeta.
      destruct (IH (after_create s provider entry w)) as [[created Hc] Hf].
      split; [|done]. exists (entry :: created). rewrite Hc. cbn.
      by rewrite <- app_assoc. }
    destruct (provider_createDirectory outside provider entry (world s))
      as [[e|[]] w] eqn:Hc.
    + destruct (not_recognised FileSystemProviderErrorCode.FileExists e) eqn:He.
      * rewrite (create_directories_aborted _ _ _ _ _ _ _ Hc He). cbn.
        split; [by exists [entry]|done].
      * rewrite (create_directories_tolerated _ _ _ _ _ _ _ Hc He). apply Hgo.
    + rewrite (create_directories_created _ _ _ _ _ _ Hc). apply Hgo.
Qed.

Lemma forallb_map_stat provider (visited : list URI) :
  forallb (protocol_call provider) (map (ProviderStat provider) visited) = true.
Proof. induction visited; cbn; [done|]. by rewrite Nat.eqb_refl. Qed.

Lemma forallb_map_create provider (created : list URI) :
  forallb (protocol_call provider) (map (ProviderCreateDirectory provider) created) = true.
Proof. induction created; cbn; [done|]. by rewrite Nat.eqb_refl. Qed.

Lemma mkdirp_state fuel provider (uri : URI) s :
  let s' := (mkdirp outside toString fsPath fuel provider uri s).2 in
  (exists protocol, calls s' = calls s ++ protocol
                    /\ forallb (protocol_call provider) protocol = true)
  /\ fsProvider s' = fsProvider s.
Proof.
  cbv zeta. unfold_mkdirp.
  destruct (dirname uri) as [e|directory]; cbn.
  { split; [exists []; by rewrite app_nil_r|done]. }
  destruct (walk_state fuel provider (path uri) directory [] s) as [[visited Hv] Hf].
  destruct (walk outside toString fsPath fuel provider (path uri) directory [] s)
    as [[toCreate| |] s1]; cbn in Hv, Hf |- *.
  - destruct (create_directories_state provider (rev toCreate) s1) as [[created Hc] Hf'].
    split; [|congruence].
    exists (map (ProviderStat provider) visited
            ++ map (ProviderCreateDirectory provider) created).
    rewrite Hc, Hv, <- app_assoc. split; [done|].
    by rewrite forallb_app, forallb_map_stat, forallb_map_create.
  - split; [|done]. exists (map (ProviderStat provider) visited).
    by rewrite forallb_map_stat.
  - split; [|done]. exists (map (ProviderStat provider) visited).
    by rewrite forallb_map_stat.
Qed.

(** X5.  For a URI whose scheme is registered and not read-only,
    [writeFile] never touches the disk.  It runs the directory-creation
    protocol on the registered backend, which calls only [stat] and
    [createDirectory] of that backend; if the protocol throws, [writeFile]
    throws the same error and the backend's [writeFile] is not called; if it
    returns, the one further call is the backend's [writeFile] on the same
    URI with the same content and [{create: true, overwrite: true}], whose
    outcome is the outcome of [writeFile]. *)
Theorem writeFile_writable_goes_to_backend (fuel : nat) (uri : URI)
    (content : list Byte.byte) s r :
  fsProvider s !! scheme uri = Some r ->
  isReadonly r = false ->
  let protocol_run := mkdirp outside toString fsPath fuel (impl r) uri s in
  let result := writeFile outside toString fsPath extensionUri fuel uri content s in
  result
  = match protocol_run with
    | (Returned _, s1) =>
        call (ProviderWriteFile (impl r) uri content true true)
          (provider_writeFile outside (impl r) uri content true true) s1
    | (Thrown e, s1) => (Thrown e, s1)
    | (OutOfFuel, s1) => (OutOfFuel, s1)
    end
  /\ exists protocol,
      forallb (protocol_call (impl r)) protocol = true
      /\ calls protocol_run.2 = calls s ++ protocol
      /\ (calls result.2
          = calls s ++ protocol ++ [ProviderWriteFile (impl r) uri content true true]
          \/ (calls result.2 = calls s ++ protocol /\ result.1 <> Returned tt)).
Proof.
  intros Hr Hro. cbv zeta.
  assert (Hrun : writeFile outside toString fsPath extensionUri fuel uri content s
                 = match mkdirp outside toString fsPath fuel (impl r) uri s with
                   | (Returned _, s1) =>
                       call (ProviderWriteFile (impl r) uri content true true)
                         (provider_writeFile outside (impl r) uri content true true) s1
                   | (Thrown e, s1) => (Thrown e, s1)
                   | (OutOfFuel, s1) => (OutOfFuel, s1)
                   end).
  { unfold writeFile, bind, gets. cbn.
    rewrite (withProvider_registered _ _ _ Hr). cbn. by rewrite Hro. }
  split; [exact Hrun|]. rewrite Hrun.
  destruct (mkdirp_state fuel (impl r) uri s) as [(protocol & Hc & Hp) _].
  exists protocol. split; [done|]. split; [done|].
  destruct (mkdirp outside toString fsPath fuel (impl r) uri s) as [[[]| |] s1];
    cbn in Hc |- *.
  - left. destruct (call_state (ProviderWriteFile (impl r) uri content true true)
                      (provider_writeFile outside (impl r) uri content true true) s1)
      as [-> _]. by rewrite Hc, <- app_assoc.
  - by right.
  - by right.
Qed.

End RouterCalls.

Lemma writeFile_writable_goes_to_backend_witness :
  let s := Example.start (Example.with_entries [("/a", FileType.Directory)])
             {[ "file" := {| impl := 0%nat; isReadonly := false |} ]} in
  let result :=
    writeFile Example.outside Example.toString Example.fsPath None 3
      Example.target Example.hello s in
  result.1 = Returned tt
  /\ calls result.2
     = map (ProviderStat 0%nat)
         [Example.uri "file" "/a/b/c"; Example.uri "file" "/a/b"; Example.uri "file" "/a"]
       ++ map (ProviderCreateDirectory 0%nat)
            [Example.uri "file" "/a/b/"; Example.uri "file" "/a/b/c/"]
       ++ [ProviderWriteFile 0%nat Example.target Example.hello true true].
Proof.
  cbv zeta.
  destruct (writeFile_writable_goes_to_backend Example.outside Example.toString
              Example.fsPath None 3 Example.target Example.hello
              (Example.start (Example.with_entries [("/a", FileType.Directory)])
                 {[ "file" := {| impl := 0%nat; isReadonly := false |} ]})
              {| impl := 0%nat; isReadonly := false |}) as [Hrun _];
    [reflexivity..|].
  rewrite Hrun. split; reflexivity.
Defined.

Section RouterEdges.

Context {World : Type}.
Variable outside : Outside World.
Variable toString : bool -> URI -> string.
Variable fsPath : URI -> string.
Variable extensionUri : option URI.
Variable fsPromises : Node.FsPromises World.
Variable platform : string.

Implicit Types (s : State World) (provider : Provider).

(** X6.  When the ancestors below are missing and the [stat] of an ancestor
    throws an error that is not taken for [FileNotFound], [mkdirp] throws
    that very error right after the [stat]: nothing is recorded for the
    ancestor and nothing is created. *)
Theorem mkdirp_rethrows_other_stat_errors
    k fuel provider (uri parent : URI) s entries top s' err w :
  path uri <> "/" ->
  dirname uri = inr parent ->
  missing outside k provider parent s = Some (entries, top, s') ->
  provider_stat outside provider top (world s') = (inl err, w) ->
  not_recognised FileSystemProviderErrorCode.FileNotFound err = true ->
  let result := mkdirp outside toString fsPath (k + S fuel) provider uri s in
  result = (Thrown err, after_stat s' provider top w)
  /\ (forall p u, In (ProviderCreateDirectory p u) (calls result.2) ->
                  In (ProviderCreateDirectory p u) (calls s)).
Proof.
  intros Hpat Hparent Hk Hst Herr. cbv zeta.
  assert (Hrun : mkdirp outside toString fsPath (k + S fuel) provider uri s
                 = (Thrown err, after_stat s' provider top w)).
  { unfold_mkdirp. rewrite Hparent. cbn.
    rewrite (walk_missing _ _ _ _ _ _ _ _ _ _ _ _ _ Hpat Hk), walk_unfold by done.
    unfold bind. by rewrite (walk_body_fatal _ _ _ _ _ _ _ _ _ Hst Herr). }
  rewrite Hrun. split; [done|]. intros p u. cbn.
  destruct (missing_calls _ _ _ _ _ _ _ _ Hk) as (visited & _ & -> & _).
  rewrite !in_app_iff, in_map_iff. cbn.
  intros [[H | (d & [=] & _)] | [[=] | []]]. done.
Qed.

(** X7.  For a target whose path is [/] the loop of [mkdirp] is not
    entered: whatever the backend and the fuel, [mkdirp] returns at once
    without a single call. *)
Theorem mkdirp_of_the_root_path fuel provider (uri : URI) s :
  path uri = "/" ->
  mkdirp outside toString fsPath fuel provider uri s = (Returned tt, s).
Proof.
  intros Hpath. unfold_mkdirp. unfold dirname, Uri.with_path. rewrite Hpath.
  change (JsString.replace_last_segment "/") with EmptyString.
  destruct (referenceResolution_cases (scheme uri) EmptyString)
    as [->|[[_ ->]|(_ & ? & _)]]; [| |done].
  - cbn. by rewrite walk_at_root.
  - rewrite validatePath_root. cbn. by rewrite walk_at_root.
Qed.

(** X9.  [stat(uri)] dispatches like [readFile]: for a scheme without a
    registration it throws [Unsupported URI scheme <scheme>] and the disk is
    not looked at; for a registered scheme the answer is that of the
    backend's [stat] for the same URI, passed on unchanged. *)
Theorem stat_dispatch (uri : URI) s :
  (fsProvider s !! scheme uri = None ->
     stat fsPromises platform outside fsPath uri s
     = (Thrown (new_Error ("Unsupported URI scheme " +:+ scheme uri)), s))
  /\ (forall r, fsProvider s !! scheme uri = Some r ->
        stat fsPromises platform outside fsPath uri s
        = call (ProviderStat (impl r) uri) (provider_stat outside (impl r) uri) s).
Proof.
  split.
  - intros Hr. unfold stat, bind, gets. cbn.
    by rewrite (withProvider_unregistered _ _ Hr).
  - intros r Hr. unfold stat, bind, gets. cbn.
    by rewrite (withProvider_registered _ _ _ Hr).
Qed.

(** X10.  The network-fetch backend fakes a file for every [stat].  A
    scheme registered with such a backend and without the read-only flag
    cannot be written: for a well-formed URI whose path is not [/],
    [writeFile] stats the parent, takes it for a file and throws
    [FileExists]; the backend's [writeFile] is not called. *)
Theorem writeFile_through_a_fetch_backend_fails (fuel : nat) (uri : URI)
    (content : list Byte.byte) s fetch :
  (forall d w, provider_stat outside fetch d w = (inr fetch_stat, w)) ->
  fsProvider s !! scheme uri = Some {| impl := fetch; isReadonly := false |} ->
  well_formed uri ->
  path uri <> "/" ->
  exists parent,
    dirname uri = inr parent
    /\ writeFile outside toString fsPath extensionUri (S fuel) uri content s
       = (Thrown (FileSystemError.create toString FileSystemError.FileExists
                    (Message (not_a_directory_message toString fsPath parent))),
          after_stat s fetch parent (world s)).
Proof.
  intros Hfetch Hr Hwf Hpat.
  destruct (with_path_valid uri _ (dirname_path_valid uri Hwf)) as [parent Hparent].
  fold (dirname uri) in Hparent.
  exists parent. split; [done|].
  unfold writeFile, bind, gets. cbn.
  rewrite (withProvider_registered _ _ _ Hr). cbn.
  unfold_mkdirp. rewrite Hparent. cbn.
  destruct (String.eqb_spec (path uri) "/") as [|_]; [done|]. unfold bind.
  by rewrite (walk_body_not_a_directory _ _ _ _ _ _ _ fetch_stat (world s)).
Qed.

End RouterEdges.

Lemma mkdirp_rethrows_other_stat_errors_witness :
  let s := Example.start Example.nothing ∅ in
  mkdirp ExampleDisk.denying Example.toString Example.fsPath 3 0%nat Example.target s
  = (Thrown (FileSystemError.create Example.toString FileSystemError.NoPermissions
               (OfUri (Example.uri "file" "/a"))),
     {| world := world s;
        calls := map (ProviderStat 0%nat)
                   [Example.uri "file" "/a/b/c"; Example.uri "file" "/a/b";
                    Example.uri "file" "/a"];
        fsProvider := ∅ |}).
Proof.
  cbv zeta.
  edestruct (mkdirp_rethrows_other_stat_errors ExampleDisk.denying Example.toString
               Example.fsPath 2 0 0%nat Example.target Example.parent_of_target
               (Example.start Example.nothing ∅))
    as (Hrun & _);
    [discriminate | reflexivity | reflexivity | reflexivity | reflexivity |].
  exact Hrun.
Defined.

Lemma mkdirp_of_the_root_path_witness :
  mkdirp Example.outside Example.toString Example.fsPath 0 0%nat
    (Example.uri "file" "/") (Example.start Example.nothing ∅)
  = (Returned tt, Example.start Example.nothing ∅).
Proof.
  apply (mkdirp_of_the_root_path Example.outside Example.toString Example.fsPath).
  reflexivity.
Defined.

Lemma stat_dispatch_witness :
  let registered : gmap string Registration :=
    {[ "file" := {| impl := 0%nat; isReadonly := false |} ]} in
  let w := Example.with_entries [("/a", FileType.Directory)] in
  stat ExampleDisk.empty_disk "linux" Example.outside Example.fsPath
    (Example.uri "memfs" "/a") (Example.start w registered)
  = (Thrown (new_Error "Unsupported URI scheme memfs"), Example.start w registered)
  /\ (stat ExampleDisk.empty_disk "linux" Example.outside Example.fsPath
        (Example.uri "file" "/a") (Example.start w registered)).1
     = Returned (Example.stat_of FileType.Directory).
Proof.
  cbv zeta.
  destruct (stat_dispatch Example.outside Example.fsPath ExampleDisk.empty_disk
              "linux" (Example.uri "memfs" "/a")
              (Example.start (Example.with_entries [("/a", FileType.Directory)])
                 {[ "file" := {| impl := 0%nat; isReadonly := false |} ]})) as [H1 _].
  destruct (stat_dispatch Example.outside Example.fsPath ExampleDisk.empty_disk
              "linux" (Example.uri "file" "/a")
              (Example.start (Example.with_entries [("/a", FileType.Directory)])
                 {[ "file" := {| impl := 0%nat; isReadonly := false |} ]})) as [_ H2].
  split; [by apply H1|]. by rewrite (H2 _ eq_refl).
Defined.

Lemma writeFile_through_a_fetch_backend_fails_witness :
  let initialised := initializeShimServices true 7%nat (Example.start Example.nothing ∅) in
  exists parent,
    dirname ExampleDisk.remote = inr parent
    /\ path parent = "/dist/browser"
    /\ writeFile ExampleDisk.fetching Example.toString Example.fsPath None 1
         ExampleDisk.remote Example.hello initialised.2
       = (Thrown (FileSystemError.create Example.toString FileSystemError.FileExists
                    (Message (not_a_directory_message Example.toString Example.fsPath
                                parent))),
          after_stat initialised.2 7%nat parent Example.nothing).
Proof.
  cbv zeta.
  destruct (writeFile_through_a_fetch_backend_fails ExampleDisk.fetching Example.toString
              Example.fsPath None 0 ExampleDisk.remote Example.hello
              (initializeShimServices true 7%nat (Example.start Example.nothing ∅)).2
              7%nat) as (parent & Hparent & Hrun);
    [reflexivity | reflexivity | by split | discriminate |].
  exists parent. split; [exact Hparent|]. split; [|exact Hrun].
  cbv in Hparent. by injection Hparent as <-.
Defined.

(** ** Registrations and what the router answers about them *)

Section Writability.

Implicit Types (m : gmap string Registration) (scheme : string).

(** X11.  Registering a provider for a free scheme makes the router answer
    for that scheme, and for that scheme only: it is writable exactly when
    the options do not make it read-only (no options and [{}] leave it
    writable, [isReadonly: true] and a markdown string make it read-only);
    every other scheme is answered as before, and once the handle is
    disposed the scheme has no answer again. *)
Theorem registration_decides_writability scheme provider options m :
  m !! scheme = None ->
  let m' := (_addFileSystemProvider scheme provider options m).2 in
  isWritableFileSystem m scheme = None
  /\ isWritableFileSystem m' scheme = Some (negb (readonly_flag options))
  /\ (forall other, other <> scheme ->
        isWritableFileSystem m' other = isWritableFileSystem m other)
  /\ isWritableFileSystem (handle_dispose scheme m') scheme = None
  /\ (readonly_flag options = true
      <-> exists o, options = Some o
                    /\ (opt_isReadonly o = Some (inl true)
                        \/ exists text, opt_isReadonly o = Some (inr text))).
Proof.
  intros Hfree. cbv zeta. rewrite (add_fresh _ _ _ _ Hfree). cbn [snd].
  unfold isWritableFileSystem, handle_dispose.
  rewrite Hfree, lookup_insert_eq, lookup_delete_eq.
  split; [done|]. split; [done|].
  split; [intros other Ho; by rewrite lookup_insert_ne|]. split; [done|].
  unfold readonly_flag. split.
  - destruct options as [o|]; [|done]. intros H. exists o. split; [done|].
    destruct (opt_isReadonly o) as [[[]|text]|]; try done; [by left|right; by exists text].
  - intros (o & -> & [-> | [text ->]]); done.
Qed.

End Writability.

Lemma registration_decides_writability_witness :
  let m' := (_addFileSystemProvider "memfs" 1%nat
               (Some {| opt_isCaseSensitive := Some true;
                        opt_isReadonly := Some (inr "read-only *for now*") |}) ∅).2 in
  isWritableFileSystem m' "memfs" = Some false
  /\ isWritableFileSystem m' "file" = None
  /\ isWritableFileSystem (handle_dispose "memfs" m') "memfs" = None.
Proof.
  cbv zeta.
  destruct (registration_decides_writability "memfs" 1%nat
              (Some {| opt_isCaseSensitive := Some true;
                       opt_isReadonly := Some (inr "read-only *for now*") |}) ∅)
    as (_ & H1 & H2 & H3 & _); [reflexivity|].
  split; [exact H1|]. split; [|exact H3].
  by rewrite (H2 "file").
Defined.

(** ** Disposal and the registrations *)

Section DisposalAndRegistrations.

Context {World : Type}.
Variable outside : Outside World.

Implicit Types (s : State World) (d : IDisposable).

Lemma dispose_call_registrations d s :
  fsProvider (dispose_call outside d s).2
  = match d with
    | FsProviderHandle scheme => delete scheme (fsProvider s)
    | _ => fsProvider s
    end.
Proof.
  destruct d as [sv|id|scheme]; cbn.
  - unfold call. by destruct (service_dispose outside sv (world s)).
  - unfold call. by destruct (subscription_dispose outside id (world s)).
  - done.
Qed.

Lemma dispose_call_shrinks d s :
  fsProvider (dispose_call outside d s).2 ⊆ fsProvider s.
Proof.
  rewrite dispose_call_registrations. destruct d; [done..|apply delete_subseteq].
Qed.

Lemma handle_returns scheme s :
  (dispose_call outside (FsProviderHandle scheme) s).1 = Returned tt.
Proof. reflexivity. Qed.

Lemma forEach_dispose_shrinks (array : list IDisposable) s :
  fsProvider (forEach_dispose outside array s).2 ⊆ fsProvider s.
Proof.
  revert s. induction array as [|d rest IH]; intros s; [done|].
  cbn [forEach_dispose]. unfold bind.
  pose proof (dispose_call_shrinks d s) as Hd.
  destruct (dispose_call outside d s) as [[[]| |] s1]; cbn in Hd |- *; [|done..].
  by etrans; [apply IH|].
Qed.

Lemma forEach_dispose_removes (array : list IDisposable) s scheme :
  (forEach_dispose outside array s).1 = Returned tt ->
  In (FsProviderHandle scheme) array ->
  fsProvider (forEach_dispose outside array s).2 !! scheme = None.
Proof.
  revert s. induction array as [|d rest IH]; intros s; [by intros _ []|].
  cbn [forEach_dispose]. unfold bind.
  pose proof (dispose_call_registrations d s) as Hd.
  destruct (dispose_call outside d s) as [[[]| |] s1]; cbn in Hd |- *; [|done..].
  intros Hret [->|Hin]; [|by apply IH].
  eapply lookup_weaken_None; [|apply forEach_dispose_shrinks].
  rewrite Hd. apply lookup_delete_eq.
Qed.

(** The steps of [dispose] before the provider registrations. *)
Lemma dispose_split (bundle : Bundle) s :
  dispose outside bundle s
  = (dispose_without_fs_providers outside ;;
     forEach_dispose outside (FsProviderDisposables bundle)) s.
Proof.
  unfold dispose, dispose_without_fs_providers. symmetry.
  do 5 (rewrite bind_assoc; apply bind_ext; intros _ ?).
  reflexivity.
Qed.

(** X13.  When [dispose()] returns, every provider registration whose handle
    the bundle holds is gone: after a browser-mode session has been
    disposed, neither [http] nor [https] is registered. *)
Theorem dispose_removes_the_bundles_registrations (bundle : Bundle) s scheme :
  (dispose outside bundle s).1 = Returned tt ->
  In (FsProviderHandle scheme) (FsProviderDisposables bundle) ->
  fsProvider (dispose outside bundle s).2 !! scheme = None
  /\ isWritableFileSystem (fsProvider (dispose outside bundle s).2) scheme = None.
Proof.
  rewrite dispose_split. unfold bind.
  destruct (dispose_without_fs_providers outside s) as [[[]| |] s1]; [|done..].
  intros Hret Hin.
  pose proof (forEach_dispose_removes _ s1 scheme Hret Hin) as Hgone.
  split; [done|]. unfold isWritableFileSystem. by rewrite Hgone.
Qed.

End DisposalAndRegistrations.

Lemma dispose_removes_the_bundles_registrations_witness :
  let bundle := {| FsProviderDisposables := [FsProviderHandle "http"; FsProviderHandle "https"] |} in
  let initialised := initializeShimServices true 7%nat (Example.start Example.nothing ∅) in
  isWritableFileSystem (fsProvider initialised.2) "https" = Some true
  /\ fsProvider (dispose Example.outside bundle initialised.2).2 !! "https" = None
  /\ isWritableFileSystem (fsProvider (dispose Example.outside bundle initialised.2).2) "https"
     = None.
Proof.
  cbv zeta. split; [reflexivity|].
  apply (dispose_removes_the_bundles_registrations Example.outside); [reflexivity|].
  right. by left.
Defined.

(** ** The symlink-aware stat *)

(** X14.  The type [toType] computes is one of [Unknown], [File],
    [Directory], alone or with [SymbolicLink]: the [SymbolicLink] bit is set
    exactly when a [symbolicLink] was passed, a dangling link is
    [SymbolicLink] and nothing else, [File] and [Directory] are never set
    together, and the [Directory] bit, which [mkdirp] tests, is set exactly
    for a directory that is not a file and not behind a dangling link. *)
Theorem toType_bits (isFile isDirectory : bool) (symbolicLink : option bool) :
  let t := toType isFile isDirectory symbolicLink in
  (Z.land t FileType.SymbolicLink <> 0 <-> is_Some symbolicLink)
  /\ (symbolicLink = Some true -> t = FileType.SymbolicLink)
  /\ ~ (Z.land t FileType.File <> 0 /\ Z.land t FileType.Directory <> 0)
  /\ (Z.land t FileType.Directory <> 0
      <-> isDirectory = true /\ isFile = false /\ symbolicLink <> Some true)
  /\ In t [0; 1; 2; 64; 65; 66].
Proof.
  cbv zeta.
  destruct isFile, isDirectory, symbolicLink as [[]|]; cbn;
    (split; [split; [by eauto|by intros []]|]);
    (split; [done|]);
    (split; [by intros []|]);
    (split; [split; [done|by intros (? & ? & ?)]|]);
    tauto.
Qed.

Lemma toType_bits_witness :
  toType false false (Some true) = FileType.SymbolicLink.
Proof.
  destruct (toType_bits false false (Some true)) as (_ & H & _). by apply H.
Defined.

Section SymLinks.

Context {World : Type}.
Variable fsPromises : Node.FsPromises World.
Variable platform : string.
Variable fsPath : URI -> string.

Lemma code_is_true code error :
  err_code error = Some code -> code_is code error = true.
Proof. intros H. unfold code_is. by rewrite bool_decide_true. Qed.

(** X15.  A dangling symbolic link is not an error: when [lstat] finds a
    link and [stat] fails with [ENOENT], the disk stat returns, on every
    platform, the type [Unknown | SymbolicLink] (64) with the times and
    size of the link itself. *)
Theorem stat_of_a_dangling_link (uri : URI) (w w1 w2 : World) link error :
  Node.lstat fsPromises (fsPath uri) w = (inr link, w1) ->
  Node.isSymbolicLink link = true ->
  Node.stat fsPromises (fsPath uri) w1 = (inl error, w2) ->
  err_code error = Some "ENOENT" ->
  stat_on_disk fsPromises platform fsPath uri w
  = (inr {| type := Z.lor FileType.Unknown FileType.SymbolicLink;
            ctime := Node.birthtime link;
            mtime := Node.mtime link;
            size := Node.size link;
            permissions := None |}, w2).
Proof.
  intros Hlstat Hlink Hstat Hcode.
  unfold stat_on_disk, symLinkStat, follow_link, dangling_or_throw.
  rewrite Hlstat, Hlink. cbn. by rewrite Hstat, (code_is_true _ _ Hcode).
Qed.

(** X16.  A link that resolves keeps the type of its target and gains the
    [SymbolicLink] bit: when [lstat] finds a link and [stat] succeeds, the
    disk stat returns the target's file-or-directory type or-ed with
    [SymbolicLink], and the birth time, modification time and size of the
    target; for a directory that is [Directory | SymbolicLink] (66). *)
Theorem stat_of_a_live_link (uri : URI) (w w1 w2 : World) link target :
  Node.lstat fsPromises (fsPath uri) w = (inr link, w1) ->
  Node.isSymbolicLink link = true ->
  Node.stat fsPromises (fsPath uri) w1 = (inr target, w2) ->
  stat_on_disk fsPromises platform fsPath uri w
  = (inr {| type := Z.lor (toType (Node.isFile target) (Node.isDirectory target) None)
                      FileType.SymbolicLink;
            ctime := Node.birthtime target;
            mtime := Node.mtime target;
            size := Node.size target;
            permissions := None |}, w2)
  /\ (Node.isFile target = false -> Node.isDirectory target = true ->
        exists st, (stat_on_disk fsPromises platform fsPath uri w).1 = inr st
                   /\ type st = 66).
Proof.
  intros Hlstat Hlink Hstat.
  assert (Hrun : stat_on_disk fsPromises platform fsPath uri w
                 = (inr {| type := Z.lor (toType (Node.isFile target)
                                            (Node.isDirectory target) None)
                                     FileType.SymbolicLink;
                           ctime := Node.birthtime target;
                           mtime := Node.mtime target;
                           size := Node.size target;
                           permissions := None |}, w2)).
  { unfold stat_on_disk, symLinkStat, follow_link.
    rewrite Hlstat, Hlink. cbn. by rewrite Hstat. }
  split; [done|]. intros Hfile Hdir. rewrite Hrun, Hfile, Hdir. by eexists.
Qed.

(** X17.  Off Windows the returned [symbolicLink] tells the truth about
    [lstat]: whenever [symLinkStat] returns, a [symbolicLink] is present
    exactly when [lstat] succeeded and reported a symbolic link. *)
Theorem symbolicLink_reflects_lstat pat (w w' : World) st symbolicLink :
  platform <> "win32" ->
  symLinkStat fsPromises platform pat w = (inr (st, symbolicLink), w') ->
  (is_Some symbolicLink
   <-> exists link w1, Node.lstat fsPromises pat w = (inr link, w1)
                       /\ Node.isSymbolicLink link = true).
Proof.
  intros Hplatform. unfold symLinkStat, follow_link, dangling_or_throw.
  destruct (String.eqb_spec platform "win32") as [|_]; [done|]. cbn [andb].
  destruct (Node.lstat fsPromises pat w) as [[e|link] w1].
  - destruct (Node.stat fsPromises pat w1) as [[error|stats] w2].
    + rewrite andb_false_r. done.
    + intros [= <- <- <-]. split; [by intros []|]. by intros (? & ? & [=] & _).
  - destruct (Node.isSymbolicLink link) eqn:Hlink; cbn.
    + intros Hrun. split; [by eauto|]. intros _. revert Hrun.
      destruct (Node.stat fsPromises pat w1) as [[error|stats] w2].
      * destruct (code_is "ENOENT" error); cbn; [|done]. by intros [= <- <- <-].
      * by intros [= <- <- <-].
    + intros [= <- <- <-]. split; [by intros []|].
      intros (? & ? & [= <- <-] & ?). congruence.
Qed.

(** X18.  Off Windows [readlink] is never consulted: two disks that answer
    [lstat] and [stat] alike give the same [symLinkStat], whatever their
    [readlink]. *)
Theorem readlink_is_used_on_windows_only (other : Node.FsPromises World) pat (w : World) :
  platform <> "win32" ->
  (forall p v, Node.lstat other p v = Node.lstat fsPromises p v) ->
  (forall p v, Node.stat other p v = Node.stat fsPromises p v) ->
  symLinkStat other platform pat w = symLinkStat fsPromises platform pat w.
Proof.
  intros Hplatform Hlstat Hstat. unfold symLinkStat, follow_link.
  destruct (String.eqb_spec platform "win32") as [|_]; [done|]. cbn [andb].
  rewrite Hlstat. destruct (Node.lstat fsPromises pat w) as [[e|link] w1].
  - by rewrite Hstat.
  - destruct (Node.isSymbolicLink link); cbn; [|done]. by rewrite Hstat.
Qed.

End SymLinks.

Lemma stat_of_a_dangling_link_witness :
  stat_on_disk ExampleDisk.fsPromises "linux" Example.fsPath (Example.uri "file" "/link") None
  = (inr {| type := 64; ctime := 11; mtime := 12; size := 13; permissions := None |}, None).
Proof.
  apply (stat_of_a_dangling_link ExampleDisk.fsPromises "linux" Example.fsPath
           (Example.uri "file" "/link") None None None ExampleDisk.a_link
           ExampleDisk.ENOENT); reflexivity.
Defined.

Lemma stat_of_a_live_link_witness :
  exists st,
    (stat_on_disk ExampleDisk.fsPromises "win32" Example.fsPath
       (Example.uri "file" "/link") (Some ExampleDisk.a_directory)).1 = inr st
    /\ type st = 66.
Proof.
  destruct (stat_of_a_live_link ExampleDisk.fsPromises "win32" Example.fsPath
              (Example.uri "file" "/link") (Some ExampleDisk.a_directory)
              (Some ExampleDisk.a_directory) (Some ExampleDisk.a_directory)
              ExampleDisk.a_link ExampleDisk.a_directory) as [_ H];
    [reflexivity..|].
  apply H; reflexivity.
Defined.

Lemma symbolicLink_reflects_lstat_witness :
  exists link w1,
    Node.lstat ExampleDisk.fsPromises "/link" None = (inr link, w1)
    /\ Node.isSymbolicLink link = true.
Proof.
  apply (symbolicLink_reflects_lstat ExampleDisk.fsPromises "linux" "/link" None None
           ExampleDisk.a_link (Some true)); [discriminate|reflexivity|by eexists].
Defined.

Lemma readlink_is_used_on_windows_only_witness :
  symLinkStat ExampleDisk.resolving "linux" "/link" None
  = symLinkStat ExampleDisk.fsPromises "linux" "/link" None.
Proof.
  apply (readlink_is_used_on_windows_only ExampleDisk.fsPromises "linux"
           ExampleDisk.resolving "/link" None); [discriminate|reflexivity..].
Defined.

(** ** The mapping of URIs to disk paths *)

(** With a bundled asset tree the mapping of URIs to disk paths has
    collisions: a bundled declaration file keeps its path, which is also the
    disk path of a URI of another scheme. *)
Remark fromResource_collides_with_bundled_assets :
  let ext := Example.uri "file" "/ext" in
  let bundled := Example.uri "file" "/ext/typescript/lib.dom.d.ts" in
  let other := {| scheme := "ext"; authority := "typescript"; path := "/lib.dom.d.ts";
                  query := EmptyString; fragment := EmptyString |} in
  fromResource (Some ext) bundled = "/ext/typescript/lib.dom.d.ts"
  /\ fromResource (Some ext) other = "/ext/typescript/lib.dom.d.ts".
Proof. cbv zeta. split; reflexivity. Qed.

(** ** Errors of a backend *)

Section PassThrough.

Context {World : Type}.
Variable outside : Outside World.
Variable fsPath : URI -> string.
Variable extensionUri : option URI.
Variable fsPromises : Node.FsPromises World.
Variable platform : string.

(** X20.  The router does not wrap or translate what a backend answers to
    [readFile]: when the registered backend throws an error, the router
    throws that very error after that one call, and the bytes of a backend
    that answers are returned as they are.  The read-only flag of the
    registration plays no part in reading. *)
Theorem backend_answers_pass_through (uri : URI) (s : State World) r :
  fsProvider s !! scheme uri = Some r ->
  (forall e w, provider_readFile outside (impl r) uri (world s) = (inl e, w) ->
     readFile outside extensionUri uri s
     = (Thrown e, {| world := w; calls := calls s ++ [ProviderReadFile (impl r) uri];
                     fsProvider := fsProvider s |}))
  /\ (forall bytes w, provider_readFile outside (impl r) uri (world s) = (inr bytes, w) ->
        readFile outside extensionUri uri s
        = (Returned bytes,
           {| world := w; calls := calls s ++ [ProviderReadFile (impl r) uri];
              fsProvider := fsProvider s |})).
Proof.
  intros Hr.
  assert (Hread : readFile outside extensionUri uri s
                  = call (ProviderReadFile (impl r) uri)
                      (provider_readFile outside (impl r) uri) s).
  { unfold readFile, bind, gets. cbn. by rewrite (withProvider_registered _ _ _ Hr). }
  rewrite Hread. unfold call.
  split; intros ? ? ->; reflexivity.
Qed.

End PassThrough.

Lemma backend_answers_pass_through_witness :
  let s := Example.start Example.nothing
             {[ "memfs" := {| impl := 0%nat; isReadonly := true |} ]} in
  readFile Example.outside None (Example.uri "memfs" "/a") s
  = (Thrown (FileSystemError.create Example.toString FileSystemError.FileNotFound
               (OfUri (Example.uri "memfs" "/a"))),
     {| world := Example.nothing;
        calls := [ProviderReadFile 0%nat (Example.uri "memfs" "/a")];
        fsProvider := fsProvider s |}).
Proof.
  cbv zeta.
  destruct (backend_answers_pass_through Example.outside None
              (Example.uri "memfs" "/a")
              (Example.start Example.nothing
                 {[ "memfs" := {| impl := 0%nat; isReadonly := true |} ]})
              {| impl := 0%nat; isReadonly := true |}) as (H & _); [reflexivity|].
  by apply H.
Defined.

